(** * Stock-Market-Trend-Prediction: indicator engine and signal fusion

    A shallow embedding of the numeric core of the backend
    ([indicators/calculator.py], [models/patchtst_predictor.py],
    [models/lightgbm_classifier.py], [models/hybrid_decision.py], the
    route and the two helpers of [api/routes/prediction.py] and the
    lexical sentiment of [ai/news_fetcher.py]) together with the
    properties the design document states about it.

    Numbers.  Python floats are modelled by exact rationals ([Q]); every
    comparison, sum, product and quotient of the source is the exact one
    here.  Rounding errors, overflow and IEEE special values are therefore
    outside this model: a property proved in it is a property of the
    algorithm in exact arithmetic, and it is stated as such wherever the
    float64 code can answer differently.  What the model does keep is
    every place where the source can fail: a division by zero, an index
    out of range or the mean of an empty array ends the computation with
    [Raise], so that "the code returns a value" is a statement one proves,
    not an assumption.

    Overflow.  The module [Binary64] embeds [calculate_rsi], [_ema] and
    [calculate_macd] a second time, on IEEE 754 binary64 numbers (the
    primitive floats of the kernel, which compute as numpy's float64 and
    Python's float do).  It is there to evaluate these functions on closes
    near the largest float, where the sums of the source overflow.

    Functions.  Every definition carries the name of the function it
    embeds.  Three functions of the source are cut in two so that the
    values they hold half-way can be named: [_analyze_patterns] is
    [pattern_scores] followed by [decide], [_rule_based_prediction] is
    [rule_signals] followed by [decide], and [HybridPredictor.predict] is
    [combine] followed by [report]. *)

From Stdlib Require Import ZArith QArith Qround Qabs Qminmax List String Bool.
From Stdlib Require Import Ascii.
From Stdlib Require PrimFloat.
From Stdlib Require Import Lia Lqa.
Import ListNotations.

Open Scope Q_scope.

(** ** Python and numpy primitives used by the source *)

Module Py.

(** The exceptions of the source.  [HTTPException] is the one of FastAPI;
    like the others it derives from [Exception], so a handler
    [except Exception] catches it. *)
Inductive exn : Type :=
| ZeroDivisionError
| IndexError
| NotANumber
| HTTPException (status_code : Z).

Inductive res (A : Type) : Type :=
| Ok (a : A)
| Raise (e : exn).
Arguments Ok {A} a.
Arguments Raise {A} e.

Definition bind {A B : Type} (m : res A) (k : A -> res B) : res B :=
  match m with
  | Ok a => k a
  | Raise e => Raise e
  end.

Definition returns {A : Type} (m : res A) : Prop := exists a, m = Ok a.

(** [x < y], [x > y], [x == y] and truthiness of a float. *)
Definition ltb (x y : Q) : bool := negb (Qle_bool y x).
Definition gtb (x y : Q) : bool := ltb y x.
Definition geb (x y : Q) : bool := Qle_bool y x.
Definition eqb (x y : Q) : bool := Qeq_bool x y.
Definition truthy (x : Q) : bool := negb (Qeq_bool x 0).

(** [x / y]: raises on a zero divisor. *)
Definition div (x y : Q) : res Q :=
  if Qeq_bool y 0 then Raise ZeroDivisionError else Ok (x / y).

(** [max(a, b)] and [min(a, b)] of two arguments: the first one wins ties. *)
Definition max2 (a b : Q) : Q := if ltb a b then b else a.
Definition min2 (a b : Q) : Q := if ltb b a then b else a.

(** Nearest integer, ties to the even one. *)
Definition round_half_even (y : Q) : Z :=
  let f := Qfloor y in
  let r := y - inject_Z f in
  if ltb r (1 # 2) then f
  else if ltb (1 # 2) r then (f + 1)%Z
  else if Z.even f then f else (f + 1)%Z.

(** [round(x, ndigits)]. *)
Definition round (x : Q) (ndigits : nat) : Q :=
  let scale := inject_Z (10 ^ Z.of_nat ndigits) in
  inject_Z (round_half_even (x * scale)) / scale.

Definition len {A : Type} (l : list A) : nat := List.length l.

(** [l[i]] for an integer [i] that may be negative. *)
Definition getitem {A : Type} (l : list A) (i : Z) : res A :=
  let n := Z.of_nat (len l) in
  let j := if (i <? 0)%Z then (i + n)%Z else i in
  if (j <? 0)%Z then Raise IndexError
  else match nth_error l (Z.to_nat j) with
       | Some x => Ok x
       | None => Raise IndexError
       end.

(** [l[-n:]] for a positive literal [n]. *)
Definition last_n {A : Type} (n : nat) (l : list A) : list A :=
  skipn (len l - n) l.

(** [sum(l)]: starts from 0 and adds the items from left to right. *)
Definition sum (l : list Q) : Q := fold_left Qplus l 0.

(** [np.mean(l)]: the mean of an empty array is not a number. *)
Definition np_mean (l : list Q) : res Q :=
  match l with
  | [] => Raise NotANumber
  | _ => Ok (sum l / inject_Z (Z.of_nat (len l)))
  end.

(** [np.diff(l)]: successive differences. *)
Fixpoint np_diff (l : list Q) : list Q :=
  match l with
  | x :: (y :: _) as tl => (y - x) :: np_diff tl
  | _ => []
  end.

(** [d.get(k, default)] on a dict kept in insertion order. *)
Fixpoint dict_get (d : list (Z * Q)) (k : Z) (default : Q) : Q :=
  match d with
  | [] => default
  | (k', v) :: d' => if (k' =? k)%Z then v else dict_get d' k default
  end.

End Py.

Notation "x <- m ;; k" := (Py.bind m (fun x => k))
  (at level 61, m at next level, right associativity).

Import Py (Ok, Raise).

(** ** Data model *)

(** [api/schemas.py], class [Candle]: every field is present once the
    request has been validated, so the [c.get(field, 0)] defaults of the
    source are never taken. *)
Module Candle.
Record t : Type := mk
  { timestamp : Z;
    open : Q;
    high : Q;
    low : Q;
    close : Q;
    volume : Q }.
End Candle.

Inductive Direction : Type := bullish | bearish | neutral.

Definition Direction_eqb (a b : Direction) : bool :=
  match a, b with
  | bullish, bullish | bearish, bearish | neutral, neutral => true
  | _, _ => false
  end.

Inductive Trend : Type := increasing | decreasing | stable.

Definition Trend_eqb (a b : Trend) : bool :=
  match a, b with
  | increasing, increasing | decreasing, decreasing | stable, stable => true
  | _, _ => false
  end.

(** The dict returned by [calculate_macd]. *)
Module Macd.
Record t : Type := mk { macd : Q; signal : Q; histogram : Q }.
End Macd.

(** The dict returned by [analyze_volume]; the two averages are absent
    from the short-input answer. *)
Module Volume.
Record t : Type := mk
  { trend : Trend;
    ratio : Q;
    recent_average : option Q;
    overall_average : option Q }.
End Volume.

(** The dict returned by [calculate_all]: the empty dict for no candles,
    otherwise all five keys.  A key that is absent is [None]. *)
Module Indicators.
Record t : Type := mk
  { rsi : option Q;
    macd : option Macd.t;
    ema : option (list (Z * Q));
    sma : option (list (Z * Q));
    volume : option Volume.t }.
Definition empty : t := mk None None None None None.
End Indicators.

(** The [probabilities] dict with its three keys. *)
Module Probs.
Definition pick (d : Direction) (b r n : Q) : Q :=
  match d with
  | bullish => b
  | bearish => r
  | neutral => n
  end.
Record t : Type := mk { bullish : Q; bearish : Q; neutral : Q }.
(** [p[d]] *)
Definition get (p : t) (d : Direction) : Q :=
  pick d (bullish p) (bearish p) (neutral p).
(** [sum(p.values())] *)
Definition total (p : t) : Q := bullish p + bearish p + neutral p.
End Probs.

(** What each of the two scorers returns. *)
Module Scorer.
Record t : Type := mk
  { direction : Direction;
    confidence : Q;
    probabilities : Probs.t }.
End Scorer.

(** What [HybridPredictor.predict] returns. *)
Module Prediction.
Record t : Type := mk
  { direction : Direction;
    confidence : Q;
    probabilities : Probs.t;
    model_agreement : bool;
    transformer_signal : Direction;
    lgbm_signal : Direction }.
End Prediction.

(** ** indicators/calculator.py *)

Module IndicatorCalculator.

Definition calculate_rsi (closes : list Q) (period : nat) : Py.res Q :=
  if (Py.len closes <? period + 1)%nat then Ok 50.0
  else
    let changes := Py.np_diff (Py.last_n (period + 1) closes) in
    let gains := map (fun c => if Py.gtb c 0 then c else 0) changes in
    let losses := map (fun c => if Py.ltb c 0 then - c else 0) changes in
    avg_gain <- Py.np_mean gains ;;
    avg_loss <- Py.np_mean losses ;;
    if Py.eqb avg_loss 0 then Ok 100.0
    else
      rs <- Py.div avg_gain avg_loss ;;
      q <- Py.div 100 (1 + rs) ;;
      let rsi := 100 - q in
      Ok (Py.round rsi 2).

Definition _ema (data : list Q) (period : nat) : Py.res Q :=
  if (Py.len data <? period)%nat then
    match data with
    | [] => Ok 0
    | _ => Py.getitem data (-1)
    end
  else
    multiplier <- Py.div 2 (inject_Z (Z.of_nat period + 1)) ;;
    ema <- Py.np_mean (firstn period data) ;;
    Ok (fold_left
          (fun ema price => price * multiplier + ema * (1 - multiplier))
          (skipn period data) ema).

Definition calculate_macd (closes : list Q) (fast slow signal : nat)
  : Py.res Macd.t :=
  if (Py.len closes <? slow + signal)%nat then Ok (Macd.mk 0 0 0)
  else
    ema_fast <- _ema closes fast ;;
    ema_slow <- _ema closes slow ;;
    let macd_line := ema_fast - ema_slow in
    let signal_line := macd_line * 0.9 in
    let histogram := macd_line - signal_line in
    Ok (Macd.mk (Py.round macd_line 4) (Py.round signal_line 4)
          (Py.round histogram 4)).

Definition calculate_emas (closes : list Q) : Py.res (list (Z * Q)) :=
  let periods := [9; 20; 50; 200]%nat in
  fold_left
    (fun acc period =>
       emas <- acc ;;
       if (period <=? Py.len closes)%nat then
         e <- _ema closes period ;;
         Ok (emas ++ [(Z.of_nat period, Py.round e 4)])
       else Ok emas)
    periods (Ok []).

Definition calculate_smas (closes : list Q) : Py.res (list (Z * Q)) :=
  let periods := [20; 50; 200]%nat in
  fold_left
    (fun acc period =>
       smas <- acc ;;
       if (period <=? Py.len closes)%nat then
         m <- Py.np_mean (Py.last_n period closes) ;;
         Ok (smas ++ [(Z.of_nat period, Py.round m 4)])
       else Ok smas)
    periods (Ok []).

Definition analyze_volume (volumes : list Q) : Py.res Volume.t :=
  if (Py.len volumes <? 5)%nat then Ok (Volume.mk stable 1.0 None None)
  else
    recent_vol <- Py.np_mean (Py.last_n 5 volumes) ;;
    avg_vol <- (if (20 <=? Py.len volumes)%nat
                then Py.np_mean (Py.last_n 20 volumes)
                else Py.np_mean volumes) ;;
    ratio <- (if Py.gtb avg_vol 0 then Py.div recent_vol avg_vol
              else Ok 1.0) ;;
    let trend :=
      if Py.gtb ratio 1.2 then increasing
      else if Py.ltb ratio 0.8 then decreasing
      else stable in
    Ok (Volume.mk trend (Py.round ratio 2)
          (Some (Py.round recent_vol 2)) (Some (Py.round avg_vol 2))).

(** The defaults [period=14] and [fast=12, slow=26, signal=9] are the
    ones [calculate_all] runs with. *)
Definition calculate_all (candles : list Candle.t) : Py.res Indicators.t :=
  match candles with
  | [] => Ok Indicators.empty
  | _ =>
    let closes := map Candle.close candles in
    let volumes := map Candle.volume candles in
    rsi <- calculate_rsi closes 14 ;;
    macd <- calculate_macd closes 12 26 9 ;;
    ema <- calculate_emas closes ;;
    sma <- calculate_smas closes ;;
    volume <- analyze_volume volumes ;;
    Ok (Indicators.mk (Some rsi) (Some macd) (Some ema) (Some sma)
          (Some volume))
  end.

End IndicatorCalculator.

(** ** indicators/calculator.py on binary64 numbers *)

(** The same functions with the numbers of the source: a Python float and
    a numpy float64 are IEEE 754 binary64 numbers, and so are the
    primitive floats.  Every operation rounds to the nearest number, a
    result too large becomes an infinity, and a quotient or a difference
    of two infinities is not a number ([nan]).  numpy does not raise on
    these: it answers [inf] or [nan]. *)
Module Binary64.

Import PrimFloat.
Local Open Scope float_scope.
#[local] Set Warnings "-inexact-float".

(** An integer of the source as a float (exact below 2^53). *)
Fixpoint of_nat (n : nat) : float :=
  match n with
  | O => 0
  | S k => of_nat k + 1
  end.

(** [np.mean(l)]: the sum of the items divided by their number.  numpy
    adds the items of a long array in blocks and not strictly from left
    to right; an order matters for the last digits of a sum only and for
    none of the sums evaluated below, which are infinite in every
    order. *)
Definition np_mean (l : list float) : float :=
  fold_left add l 0 / of_nat (Py.len l).

(** [np.diff(l)]: successive differences. *)
Fixpoint np_diff (l : list float) : list float :=
  match l with
  | x :: (y :: _) as tl => (y - x) :: np_diff tl
  | _ => []
  end.

(** The nearest integer, ties to the even one: below 2^52 by adding and
    subtracting 2^52, from 2^52 on every float is an integer, and [nan]
    stays [nan]. *)
Definition rint (x : float) : float :=
  if abs x <? 4503599627370496 then
    if x <? 0 then - ((- x + 4503599627370496) - 4503599627370496)
    else (x + 4503599627370496) - 4503599627370496
  else x.

(** [round(x, ndigits)] on a numpy float64: scale, [rint], scale back. *)
Definition round (x : float) (ndigits : nat) : float :=
  let scale := of_nat (10 ^ ndigits) in
  rint (x * scale) / scale.

Record Macd : Type := mkMacd
  { macd : float; signal : float; histogram : float }.

Module IndicatorCalculator.

Definition calculate_rsi (closes : list float) (period : nat) : float :=
  if (Py.len closes <? period + 1)%nat then 50.0
  else
    let changes := np_diff (Py.last_n (period + 1) closes) in
    let gains := map (fun c => if 0 <? c then c else 0) changes in
    let losses := map (fun c => if c <? 0 then - c else 0) changes in
    let avg_gain := np_mean gains in
    let avg_loss := np_mean losses in
    if avg_loss =? 0 then 100.0
    else
      let rs := avg_gain / avg_loss in
      let rsi := 100 - (100 / (1 + rs)) in
      round rsi 2.

Definition _ema (data : list float) (period : nat) : float :=
  if (Py.len data <? period)%nat then List.last data 0
  else
    let multiplier := 2 / of_nat (period + 1) in
    let ema := np_mean (firstn period data) in
    fold_left
      (fun ema price => (price * multiplier) + (ema * (1 - multiplier)))
      (skipn period data) ema.

Definition calculate_macd (closes : list float) (fast slow signal : nat)
  : Macd :=
  if (Py.len closes <? slow + signal)%nat then mkMacd 0 0 0
  else
    let ema_fast := _ema closes fast in
    let ema_slow := _ema closes slow in
    let macd_line := ema_fast - ema_slow in
    let signal_line := macd_line * 0.9 in
    let histogram := macd_line - signal_line in
    mkMacd (round macd_line 4) (round signal_line 4) (round histogram 4).

End IndicatorCalculator.





End Binary64.

(** ** models/patchtst_predictor.py (scorer A) *)

Module PatchTSTPredictor.

Definition sequence_length : nat := 60.

Definition _neutral_prediction : Scorer.t :=
  Scorer.mk neutral 33 (Probs.mk 0.33 0.33 0.34).

(** The feature matrix; [_analyze_patterns] receives it and never reads it. *)
Definition _extract_features (candles : list Candle.t)
  (indicators : Indicators.t) : list (list Q) :=
  map (fun candle =>
         [Candle.open candle; Candle.high candle; Candle.low candle;
          Candle.close candle; Candle.volume candle])
      (Py.last_n sequence_length candles).

(** The locals of [_analyze_patterns] once the scores are normalised. *)
Record Scores : Type := mkScores
  { bullish_score : Z;
    bearish_score : Z;
    bullish_prob : Q;
    bearish_prob : Q;
    neutral_prob : Q }.

(** [_analyze_patterns], from the momentum to [neutral_prob]. *)
Definition pattern_scores (candles : list Candle.t)
  (indicators : Indicators.t) : Py.res Scores :=
  let recent_closes := map Candle.close (Py.last_n 10 candles) in
  momentum <-
    (if (2 <=? Py.len recent_closes)%nat then
       first <- Py.getitem recent_closes 0 ;;
       if negb (Py.eqb first 0) then
         last <- Py.getitem recent_closes (-1) ;;
         Py.div (last - first) first
       else Ok 0
     else Ok 0) ;;
  let last_candles := Py.last_n 5 candles in
  let bullish_count :=
    Z.of_nat (Py.len (filter (fun c => Py.gtb (Candle.close c) (Candle.open c))
                        last_candles)) in
  let bearish_count := (Z.of_nat (Py.len last_candles) - bullish_count)%Z in
  let rsi := match Indicators.rsi indicators with Some r => r | None => 50 end in
  let macd_histogram :=
    match Indicators.macd indicators with
    | Some macd => Macd.histogram macd
    | None => 0
    end in
  let bullish_score := 0%Z in
  let bearish_score := 0%Z in
  let '(bullish_score, bearish_score) :=
    if Py.gtb momentum 0.01 then ((bullish_score + 25)%Z, bearish_score)
    else if Py.ltb momentum (- 0.01) then (bullish_score, (bearish_score + 25)%Z)
    else (bullish_score, bearish_score) in
  let bullish_score := (bullish_score + bullish_count * 8)%Z in
  let bearish_score := (bearish_score + bearish_count * 8)%Z in
  let '(bullish_score, bearish_score) :=
    if Py.truthy rsi && Py.ltb rsi 30 then ((bullish_score + 15)%Z, bearish_score)
    else if Py.truthy rsi && Py.gtb rsi 70 then (bullish_score, (bearish_score + 15)%Z)
    else if Py.truthy rsi then
      (if Py.gtb rsi 50 then ((bullish_score + 5)%Z, bearish_score)
       else (bullish_score, (bearish_score + 5)%Z))
    else (bullish_score, bearish_score) in
  let '(bullish_score, bearish_score) :=
    if Py.gtb macd_histogram 0 then ((bullish_score + 10)%Z, bearish_score)
    else if Py.ltb macd_histogram 0 then (bullish_score, (bearish_score + 10)%Z)
    else (bullish_score, bearish_score) in
  let total_score := (bullish_score + bearish_score + 20)%Z in
  bullish_prob <- Py.div (inject_Z bullish_score) (inject_Z total_score) ;;
  bearish_prob <- Py.div (inject_Z bearish_score) (inject_Z total_score) ;;
  let neutral_prob := 1 - bullish_prob - bearish_prob in
  Ok (mkScores bullish_score bearish_score bullish_prob bearish_prob
        neutral_prob).

(** [_analyze_patterns], from "Determine direction" to the returned dict. *)
Definition decide (s : Scores) : Scorer.t :=
  let '(direction, confidence) :=
    if Py.gtb (bullish_prob s) (bearish_prob s) && Py.gtb (bullish_prob s) 0.4
    then (bullish, bullish_prob s * 100)
    else if Py.gtb (bearish_prob s) (bullish_prob s)
            && Py.gtb (bearish_prob s) 0.4
    then (bearish, bearish_prob s * 100)
    else (neutral, neutral_prob s * 100) in
  Scorer.mk direction (Py.min2 confidence 90)
    (Probs.mk (bullish_prob s) (bearish_prob s)
       (Py.max2 (neutral_prob s) 0.1)).

Definition _analyze_patterns (features : list (list Q))
  (candles : list Candle.t) (indicators : Indicators.t) : Py.res Scorer.t :=
  if (Py.len candles <? 5)%nat then Ok _neutral_prediction
  else
    s <- pattern_scores candles indicators ;;
    Ok (decide s).

Definition predict (candles : list Candle.t) (indicators : Indicators.t)
  : Py.res Scorer.t :=
  let features := _extract_features candles indicators in
  _analyze_patterns features candles indicators.

End PatchTSTPredictor.

(** ** models/lightgbm_classifier.py (scorer B) *)

Module Features.
Record t : Type := mk
  { rsi : Q;
    macd_hist : Q;
    ema_trend : Q;
    volume_ratio : Q;
    body_size : Q;
    wick_ratio : Q;
    momentum_5 : Q;
    momentum_10 : Q }.
End Features.

Module LightGBMClassifier.

Definition _neutral_prediction : Scorer.t :=
  Scorer.mk neutral 33 (Probs.mk 0.33 0.33 0.34).

Definition _extract_features (candles : list Candle.t)
  (indicators : Indicators.t) : Py.res Features.t :=
  last_candle <- Py.getitem candles (-1) ;;
  let prev_candles :=
    if (10 <=? Py.len candles)%nat then Py.last_n 10 candles else candles in
  rsi <-
    match Indicators.rsi indicators with
    | Some r => if Py.truthy r then Py.div r 100 else Ok 0.5
    | None => Ok 0.5
    end ;;
  let macd_hist :=
    match Indicators.macd indicators with
    | Some macd => Macd.histogram macd
    | None => 0
    end in
  let ema_20 :=
    match Indicators.ema indicators with
    | Some (_ :: _ as ema) => Py.dict_get ema 20 0
    | _ => 0
    end in
  let close := Candle.close last_candle in
  ema_trend <-
    (if Py.truthy ema_20 then Py.div (close - ema_20) ema_20 else Ok 0) ;;
  let volumes := map Candle.volume prev_candles in
  avg_volume <-
    match volumes with
    | [] => Ok 1
    | _ => Py.np_mean volumes
    end ;;
  volume_ratio <-
    (if Py.truthy avg_volume
     then Py.div (Candle.volume last_candle) avg_volume
     else Ok 1) ;;
  let body_size := Qabs (Candle.close last_candle - Candle.open last_candle) in
  let high_low := Candle.high last_candle - Candle.low last_candle in
  wick_ratio <-
    (if Py.truthy high_low then Py.div (high_low - body_size) high_low
     else Ok 0) ;;
  let closes := map Candle.close prev_candles in
  momentum_5 <-
    (if (5 <=? Py.len closes)%nat then
       c5 <- Py.getitem closes (-5) ;;
       if Py.truthy c5 then
         c1 <- Py.getitem closes (-1) ;;
         Py.div (c1 - c5) c5
       else Ok 0
     else Ok 0) ;;
  momentum_10 <-
    (c0 <- Py.getitem closes 0 ;;
     if Py.truthy c0 then
       c1 <- Py.getitem closes (-1) ;;
       Py.div (c1 - c0) c0
     else Ok 0) ;;
  Ok (Features.mk rsi macd_hist ema_trend volume_ratio body_size wick_ratio
        momentum_5 momentum_10).

(** The locals of [_rule_based_prediction] once the signals are counted. *)
Record Signals : Type := mkSignals
  { bullish_signals : Z;
    bearish_signals : Z;
    bullish_prob : Q;
    bearish_prob : Q;
    neutral_prob : Q }.

(** [_rule_based_prediction], from the RSI signals to [neutral_prob]. *)
Definition rule_signals (features : Features.t) : Py.res Signals :=
  let rsi := Features.rsi features in
  let macd_hist := Features.macd_hist features in
  let ema_trend := Features.ema_trend features in
  let volume_ratio := Features.volume_ratio features in
  let momentum_5 := Features.momentum_5 features in
  let momentum_10 := Features.momentum_10 features in
  let bullish_signals := 0%Z in
  let bearish_signals := 0%Z in
  let '(bullish_signals, bearish_signals) :=
    if Py.ltb rsi 0.3 then ((bullish_signals + 2)%Z, bearish_signals)
    else if Py.gtb rsi 0.7 then (bullish_signals, (bearish_signals + 2)%Z)
    else if Py.gtb rsi 0.5 then ((bullish_signals + 1)%Z, bearish_signals)
    else (bullish_signals, (bearish_signals + 1)%Z) in
  let '(bullish_signals, bearish_signals) :=
    if Py.gtb macd_hist 0 then ((bullish_signals + 1)%Z, bearish_signals)
    else if Py.ltb macd_hist 0 then (bullish_signals, (bearish_signals + 1)%Z)
    else (bullish_signals, bearish_signals) in
  let '(bullish_signals, bearish_signals) :=
    if Py.gtb ema_trend 0.02 then ((bullish_signals + 2)%Z, bearish_signals)
    else if Py.ltb ema_trend (- 0.02)
    then (bullish_signals, (bearish_signals + 2)%Z)
    else if Py.gtb ema_trend 0 then ((bullish_signals + 1)%Z, bearish_signals)
    else (bullish_signals, (bearish_signals + 1)%Z) in
  let '(bullish_signals, bearish_signals) :=
    if Py.gtb volume_ratio 1.2 then
      (if Py.gtb momentum_5 0 then ((bullish_signals + 1)%Z, bearish_signals)
       else if Py.ltb momentum_5 0
       then (bullish_signals, (bearish_signals + 1)%Z)
       else (bullish_signals, bearish_signals))
    else (bullish_signals, bearish_signals) in
  let '(bullish_signals, bearish_signals) :=
    if Py.gtb momentum_5 0.02 then ((bullish_signals + 2)%Z, bearish_signals)
    else if Py.ltb momentum_5 (- 0.02)
    then (bullish_signals, (bearish_signals + 2)%Z)
    else (bullish_signals, bearish_signals) in
  let '(bullish_signals, bearish_signals) :=
    if Py.gtb momentum_10 0.03 then ((bullish_signals + 1)%Z, bearish_signals)
    else if Py.ltb momentum_10 (- 0.03)
    then (bullish_signals, (bearish_signals + 1)%Z)
    else (bullish_signals, bearish_signals) in
  let total := (bullish_signals + bearish_signals + 3)%Z in
  bullish_prob <- Py.div (inject_Z bullish_signals) (inject_Z total) ;;
  bearish_prob <- Py.div (inject_Z bearish_signals) (inject_Z total) ;;
  let neutral_prob := 1 - bullish_prob - bearish_prob in
  Ok (mkSignals bullish_signals bearish_signals bullish_prob bearish_prob
        neutral_prob).

(** [_rule_based_prediction], from "Determine direction" to the returned
    dict. *)
Definition decide (s : Signals) : Scorer.t :=
  let '(direction, confidence) :=
    if Py.gtb (bullish_prob s) (bearish_prob s) && (4 <=? bullish_signals s)%Z
    then (bullish, Py.min2 (bullish_prob s * 100) 85)
    else if Py.gtb (bearish_prob s) (bullish_prob s)
            && (4 <=? bearish_signals s)%Z
    then (bearish, Py.min2 (bearish_prob s * 100) 85)
    else (neutral, 50) in
  Scorer.mk direction confidence
    (Probs.mk (bullish_prob s) (bearish_prob s)
       (Py.max2 (neutral_prob s) 0.1)).

Definition _rule_based_prediction (features : Features.t)
  (candles : list Candle.t) (indicators : Indicators.t) : Py.res Scorer.t :=
  s <- rule_signals features ;;
  Ok (decide s).

Definition predict (candles : list Candle.t) (indicators : Indicators.t)
  : Py.res Scorer.t :=
  if (Py.len candles <? 5)%nat then Ok _neutral_prediction
  else
    features <- _extract_features candles indicators ;;
    _rule_based_prediction features candles indicators.

End LightGBMClassifier.

(** ** models/hybrid_decision.py (fusion) *)

Module HybridPredictor.

Definition transformer_weight : Q := 0.6.
Definition lgbm_weight : Q := 0.4.

(** Both dicts carry the three keys, so the [.get(key, 0.33)] default of
    the source is never taken. *)
Definition _weighted_average (probs1 probs2 : Probs.t) : Py.res Probs.t :=
  let result key :=
    Probs.get probs1 key * transformer_weight
    + Probs.get probs2 key * lgbm_weight in
  let total := Py.sum [result bullish; result bearish; result neutral] in
  b <- Py.div (result bullish) total ;;
  r <- Py.div (result bearish) total ;;
  n <- Py.div (result neutral) total ;;
  Ok (Probs.mk b r n).

(** The locals of [predict] when its [if]/[else] is left. *)
Record Combined : Type := mkCombined
  { direction : Direction;
    combined_probs : Probs.t;
    confidence : Q;
    model_agreement : bool }.

(** [predict], from the agreement test to the end of the [if]/[else]. *)
Definition combine (transformer_pred lgbm_pred : Scorer.t)
  : Py.res Combined :=
  let model_agreement :=
    Direction_eqb (Scorer.direction transformer_pred)
      (Scorer.direction lgbm_pred) in
  if model_agreement then
    combined_probs <-
      _weighted_average (Scorer.probabilities transformer_pred)
        (Scorer.probabilities lgbm_pred) ;;
    let direction := Scorer.direction transformer_pred in
    let confidence :=
      Py.max2
        (Scorer.confidence transformer_pred * transformer_weight
         + Scorer.confidence lgbm_pred * lgbm_weight)
        (Probs.get combined_probs direction * 100) in
    Ok (mkCombined direction combined_probs confidence model_agreement)
  else
    let transformer_conf := Scorer.confidence transformer_pred in
    let lgbm_conf := Scorer.confidence lgbm_pred in
    if Py.gtb transformer_conf 70 && Py.gtb transformer_conf (lgbm_conf + 20)
    then
      Ok (mkCombined (Scorer.direction transformer_pred)
            (Scorer.probabilities transformer_pred)
            (transformer_conf * 0.7) model_agreement)
    else if Py.gtb lgbm_conf 70 && Py.gtb lgbm_conf (transformer_conf + 20)
    then
      Ok (mkCombined (Scorer.direction lgbm_pred)
            (Scorer.probabilities lgbm_pred)
            (lgbm_conf * 0.7) model_agreement)
    else
      Ok (mkCombined neutral (Probs.mk 0.33 0.33 0.34) 40 model_agreement).

(** The dict built by the [return] of [predict]. *)
Definition report (transformer_pred lgbm_pred : Scorer.t) (c : Combined)
  : Prediction.t :=
  Prediction.mk
    (direction c)
    (Py.round (Py.min2 (confidence c) 95) 1)
    (Probs.mk
       (Py.round (Probs.bullish (combined_probs c) * 100) 1)
       (Py.round (Probs.bearish (combined_probs c) * 100) 1)
       (Py.round (Probs.neutral (combined_probs c) * 100) 1))
    (model_agreement c)
    (Scorer.direction transformer_pred)
    (Scorer.direction lgbm_pred).

(** [predict] once both scorers have answered. *)
Definition fuse (transformer_pred lgbm_pred : Scorer.t)
  : Py.res Prediction.t :=
  c <- combine transformer_pred lgbm_pred ;;
  Ok (report transformer_pred lgbm_pred c).

(** [existing_indicators] is accepted by the source and never read. *)
Definition predict (candles : list Candle.t) (indicators : Indicators.t)
  : Py.res Prediction.t :=
  transformer_pred <- PatchTSTPredictor.predict candles indicators ;;
  lgbm_pred <- LightGBMClassifier.predict candles indicators ;;
  fuse transformer_pred lgbm_pred.

End HybridPredictor.

(** ** api/routes/prediction.py (risk assessment) *)

Module PredictionRoute.

Open Scope string_scope.

Definition low_confidence_notice : string :=
  "Low confidence prediction - consider waiting for clearer signals.".
Definition disagreement_notice : string :=
  "ML models show conflicting signals - increased uncertainty.".
Definition rsi_notice (condition : string) : string :=
  "RSI indicates " ++ condition ++ " conditions - reversal possible.".
Definition volume_notice : string :=
  "Low volume may not support directional move.".

Definition assess_risk (prediction : Prediction.t)
  (technical : Indicators.t) : string :=
  let confidence := Prediction.confidence prediction in
  let conflicts := Prediction.model_agreement prediction in
  if Py.geb confidence 70 && conflicts then "low"
  else if Py.geb confidence 50 then "medium"
  else "high".

Definition generate_warnings (prediction : Prediction.t)
  (technical : Indicators.t) : list string :=
  let warnings := @nil string in
  let warnings :=
    if Py.ltb (Prediction.confidence prediction) 50
    then (warnings ++ [low_confidence_notice])%list else warnings in
  let warnings :=
    if negb (Prediction.model_agreement prediction)
    then (warnings ++ [disagreement_notice])%list else warnings in
  let rsi := Indicators.rsi technical in
  let warnings :=
    match rsi with
    | Some rsi =>
      if Py.truthy rsi && (Py.gtb rsi 70 || Py.ltb rsi 30) then
        let condition := if Py.gtb rsi 70 then "overbought" else "oversold" in
        (warnings ++ [rsi_notice condition])%list
      else warnings
    | None => warnings
    end in
  let vol := Indicators.volume technical in
  let warnings :=
    match vol with
    | Some vol =>
      if Trend_eqb (Volume.trend vol) decreasing
         && negb (Direction_eqb (Prediction.direction prediction) neutral)
      then (warnings ++ [volume_notice])%list else warnings
    | None => warnings
    end in
  warnings.

(** The fields of [InsightResponse] that the route fills from the
    request; the two timestamps of the response are left out. *)
Record Insight : Type := mkInsight
  { prediction : Prediction.t;
    technical_analysis : Indicators.t;
    explanation : string;
    risk_level : string;
    warnings : list string }.

(** [predict_next_candle] on the symbol and the candles of a request.

    The body of the [try]: fewer than five candles raise [HTTPException]
    with status 400; otherwise the indicators, the prediction, the
    explanation, the risk level and the warnings are computed in the
    order of the source.  The explanation comes from a text generator
    outside the numeric core: its call, the evaluation of the arguments
    included, is the parameter [generate], which answers a text or raises.

    The handler [except Exception] of the route catches whatever the body
    raises, the [HTTPException] of the guard included, and raises
    [HTTPException] with status 500 in its place. *)
Definition predict_next_candle
  (generate : string -> Prediction.t -> Indicators.t -> Py.res string)
  (symbol : string) (candles_data : list Candle.t) : Py.res Insight :=
  let body :=
    if (Py.len candles_data <? 5)%nat then Raise (Py.HTTPException 400)
    else
      tech_analysis <- IndicatorCalculator.calculate_all candles_data ;;
      prediction_result <-
        HybridPredictor.predict candles_data tech_analysis ;;
      explanation <- generate symbol prediction_result tech_analysis ;;
      let risk_level := assess_risk prediction_result tech_analysis in
      let warnings := generate_warnings prediction_result tech_analysis in
      Ok (mkInsight prediction_result tech_analysis explanation risk_level
            warnings) in
  match body with
  | Ok response => Ok response
  | Raise _ => Raise (Py.HTTPException 500)
  end.

End PredictionRoute.

(** ** ai/news_fetcher.py (lexical sentiment) *)

(** A headline is modelled by the list of its characters when all of them
    are ASCII ([isascii]); on such a string Python's [str.lower] maps the
    letters A to Z to a to z and leaves every other character as it is,
    which is what [lower] does.  Characters outside ASCII, which
    [str.lower] treats by the Unicode tables, are outside the model:
    statements that depend on which keywords a headline holds are made
    for ASCII headlines. *)
Module PyStr.

(** [s.isascii()] *)
Definition isascii (s : string) : bool :=
  forallb (fun c => (N_of_ascii c <? 128)%N) (list_ascii_of_string s).

Definition lower_char (c : ascii) : ascii :=
  let n := N_of_ascii c in
  if ((65 <=? n) && (n <=? 90))%N then ascii_of_N (n + 32) else c.

(** [s.lower()] *)
Fixpoint lower (s : string) : string :=
  match s with
  | EmptyString => EmptyString
  | String c s' => String (lower_char c) (lower s')
  end.

(** [w in s] on two strings: [w] occurs somewhere in [s]. *)
Fixpoint contains (w s : string) : bool :=
  String.prefix w s
  || match s with
     | EmptyString => false
     | String _ s' => contains w s'
     end.

End PyStr.

Module NewsFetcher.

Open Scope string_scope.

Definition positive_words : list string :=
  ["surge"; "rally"; "gain"; "rise"; "bullish"; "upgrade";
   "beat"; "strong"; "growth"; "profit"; "success"; "high"].

Definition negative_words : list string :=
  ["drop"; "fall"; "decline"; "bearish"; "downgrade"; "miss";
   "weak"; "loss"; "fail"; "low"; "crash"; "sell"].

(** [sum(1 for w in words if w in lower_headline)] *)
Definition hits (words : list string) (lower_headline : string) : Z :=
  Z.of_nat
    (Py.len (filter (fun w => PyStr.contains w lower_headline) words)).

(** [_calculate_sentiment]: the two counters after the loop over the
    headlines. *)
Definition count_words (headlines : list string) : Z * Z :=
  fold_left
    (fun '(positive_count, negative_count) headline =>
       let lower_headline := PyStr.lower headline in
       ((positive_count + hits positive_words lower_headline)%Z,
        (negative_count + hits negative_words lower_headline)%Z))
    headlines (0%Z, 0%Z).

Definition _calculate_sentiment (headlines : list string) : Py.res Q :=
  match headlines with
  | [] => Ok 0.0%Q
  | _ =>
    let '(positive_count, negative_count) := count_words headlines in
    let total := (positive_count + negative_count)%Z in
    if (total =? 0)%Z then Ok 0.0%Q
    else
      score <- Py.div (inject_Z (positive_count - negative_count))
                 (inject_Z total) ;;
      Ok (Py.round score 2)
  end.

End NewsFetcher.

(** ** The invariant of a scorer output (design document, data model) *)

Definition within (x centre tolerance : Q) : Prop :=
  centre - tolerance <= x <= centre + tolerance.

Definition in_unit (x : Q) : Prop := 0 <= x <= 1.

Record ScorerOutput_ok (o : Scorer.t) : Prop := mkScorerOutput_ok
  { ok_confidence : 0 <= Scorer.confidence o <= 100;
    ok_bullish : in_unit (Probs.bullish (Scorer.probabilities o));
    ok_bearish : in_unit (Probs.bearish (Scorer.probabilities o));
    ok_neutral : in_unit (Probs.neutral (Scorer.probabilities o));
    ok_total : within (Probs.total (Scorer.probabilities o)) 1 (1 # 1000000) }.

(** What both scorers establish before they pick a direction: two
    non-negative integer scores of bounded sum, divided by their sum plus a
    fixed neutral [base], and the complement as neutral share. *)
Definition Normalised (base limit bull bear : Z) (bp brp np : Q) : Prop :=
  (0 <= bull)%Z /\ (0 <= bear)%Z /\ (bull + bear <= limit)%Z
  /\ bp = inject_Z bull / inject_Z (bull + bear + base)
  /\ brp = inject_Z bear / inject_Z (bull + bear + base)
  /\ np = 1 - bp - brp.

(** A value printed with [n] decimals. *)
Definition has_decimals (n : nat) (x : Q) : Prop :=
  exists k : Z, x == inject_Z k / inject_Z (10 ^ Z.of_nat n).

(** The invariant of a fused prediction (design document, data model and
    testable properties): a confidence between 0 and 95 printed with one
    decimal, and percentages printed with one decimal that add up to 100
    within 0.2. *)
Record FusedPrediction_ok (p : Prediction.t) : Prop := mkFusedPrediction_ok
  { ok_fused_confidence : 0 <= Prediction.confidence p <= 95;
    ok_fused_rounded : has_decimals 1 (Prediction.confidence p);
    ok_percent_bullish :
      has_decimals 1 (Probs.bullish (Prediction.probabilities p));
    ok_percent_bearish :
      has_decimals 1 (Probs.bearish (Prediction.probabilities p));
    ok_percent_neutral :
      has_decimals 1 (Probs.neutral (Prediction.probabilities p));
    ok_percent_total :
      within (Probs.total (Prediction.probabilities p)) 100 0.2 }.

(** The agreement rule of the design document, for two scorer outputs [a]
    and [b]: the fusion answers; the answer has the direction of [a] and
    [model_agreement = true]; before the percentages are taken its
    probabilities are the blends [0.6 a + 0.4 b] of each class divided by
    the sum of the three blends, so that they add up to one; and before
    the cap its confidence is the larger of the blended confidence and of
    100 times the fused probability of the direction. *)
Definition blend (a b : Scorer.t) (key : Direction) : Q :=
  0.6 * Probs.get (Scorer.probabilities a) key
  + 0.4 * Probs.get (Scorer.probabilities b) key.

Definition Agreement_rule (a b : Scorer.t) : Prop :=
  let T := blend a b bullish + blend a b bearish + blend a b neutral in
  exists c : HybridPredictor.Combined,
    HybridPredictor.combine a b = Ok c
    /\ HybridPredictor.fuse a b = Ok (HybridPredictor.report a b c)
    /\ Prediction.direction (HybridPredictor.report a b c)
       = Scorer.direction a
    /\ Prediction.model_agreement (HybridPredictor.report a b c) = true
    /\ Probs.bullish (HybridPredictor.combined_probs c)
       == blend a b bullish / T
    /\ Probs.bearish (HybridPredictor.combined_probs c)
       == blend a b bearish / T
    /\ Probs.neutral (HybridPredictor.combined_probs c)
       == blend a b neutral / T
    /\ Probs.total (HybridPredictor.combined_probs c) == 1
    /\ HybridPredictor.confidence c
       == Qmax (0.6 * Scorer.confidence a + 0.4 * Scorer.confidence b)
            (Probs.get (HybridPredictor.combined_probs c)
               (Scorer.direction a) * 100).

(** All the hits of [words] in a list of headlines. *)
Definition total_hits (words : list string) (headlines : list string) : Z :=
  fold_right
    (fun headline acc => (NewsFetcher.hits words (PyStr.lower headline) + acc)%Z)
    0%Z headlines.

(** ** Sample inputs *)

(** Fifteen candles whose closes fall by one from 20 to 6. *)
Definition falling_candles : list Candle.t :=
  map (fun n =>
         let c := inject_Z (20 - Z.of_nat n) in
         Candle.mk (Z.of_nat n) (c + 1) (c + 1) c c 10)
      (seq 0 15).

(** * Properties *)

(** ** Comparisons, division, [min] and [max] *)

Lemma ltb_lt (x y : Q) : Py.ltb x y = true <-> x < y.
Proof.
  unfold Py.ltb. rewrite negb_true_iff. split; intro H.
  - apply Qnot_le_lt. intro Hle. apply Qle_bool_iff in Hle. congruence.
  - destruct (Qle_bool y x) eqn:E; [|reflexivity].
    apply Qle_bool_iff in E. exfalso. apply (Qlt_not_le _ _ H E).
Qed.

Lemma ltb_ge (x y : Q) : Py.ltb x y = false <-> y <= x.
Proof.
  unfold Py.ltb. rewrite negb_false_iff. apply Qle_bool_iff.
Qed.

Lemma gtb_gt (x y : Q) : Py.gtb x y = true <-> y < x.
Proof. apply ltb_lt. Qed.

Lemma gtb_le (x y : Q) : Py.gtb x y = false <-> x <= y.
Proof. apply ltb_ge. Qed.

Lemma geb_ge (x y : Q) : Py.geb x y = true <-> y <= x.
Proof. apply Qle_bool_iff. Qed.

Lemma eqb_eq (x y : Q) : Py.eqb x y = true <-> x == y.
Proof. apply Qeq_bool_iff. Qed.

Lemma eqb_neq (x y : Q) : Py.eqb x y = false <-> ~ x == y.
Proof.
  unfold Py.eqb. split.
  - apply Qeq_bool_neq.
  - intro H. destruct (Qeq_bool x y) eqn:E; [|reflexivity].
    apply Qeq_bool_iff in E. contradiction.
Qed.

Lemma truthy_true (x : Q) : Py.truthy x = true <-> ~ x == 0.
Proof. unfold Py.truthy. rewrite negb_true_iff. apply eqb_neq. Qed.

Lemma truthy_false (x : Q) : Py.truthy x = false <-> x == 0.
Proof. unfold Py.truthy. rewrite negb_false_iff. apply eqb_eq. Qed.

(** Moves every boolean test on rationals in the context to [Prop]. *)
Ltac tests_to_prop :=
  repeat match goal with
    | H : Py.ltb _ _ = true |- _ => apply ltb_lt in H
    | H : Py.ltb _ _ = false |- _ => apply ltb_ge in H
    | H : Py.gtb _ _ = true |- _ => apply gtb_gt in H
    | H : Py.gtb _ _ = false |- _ => apply gtb_le in H
    | H : Py.geb _ _ = true |- _ => apply geb_ge in H
    | H : Py.eqb _ _ = true |- _ => apply eqb_eq in H
    | H : Py.eqb _ _ = false |- _ => apply eqb_neq in H
    | H : Py.truthy _ = true |- _ => apply truthy_true in H
    | H : Py.truthy _ = false |- _ => apply truthy_false in H
    | H : _ && _ = true |- _ => apply andb_true_iff in H; destruct H
    | H : _ || _ = false |- _ => apply orb_false_iff in H; destruct H
    end.

Lemma div_ok (x y : Q) : ~ y == 0 -> Py.div x y = Ok (x / y).
Proof.
  intro H. unfold Py.div. apply eqb_neq in H. unfold Py.eqb in H.
  now rewrite H.
Qed.

Lemma max2_cases (a b : Q) :
  (Py.max2 a b = b /\ a < b) \/ (Py.max2 a b = a /\ b <= a).
Proof.
  unfold Py.max2. destruct (Py.ltb a b) eqn:E; tests_to_prop; auto.
Qed.

Lemma min2_cases (a b : Q) :
  (Py.min2 a b = b /\ b < a) \/ (Py.min2 a b = a /\ a <= b).
Proof.
  unfold Py.min2. destruct (Py.ltb b a) eqn:E; tests_to_prop; auto.
Qed.

(** ** Rounding *)

Lemma round_half_even_cases (y : Q) :
  (Py.round_half_even y = Qfloor y /\ y - inject_Z (Qfloor y) <= 1 # 2)
  \/ (Py.round_half_even y = (Qfloor y + 1)%Z
      /\ 1 # 2 <= y - inject_Z (Qfloor y)).
Proof.
  unfold Py.round_half_even.
  destruct (Py.ltb (y - inject_Z (Qfloor y)) (1 # 2)) eqn:E1.
  - tests_to_prop. left. split; [reflexivity | lra].
  - destruct (Py.ltb (1 # 2) (y - inject_Z (Qfloor y))) eqn:E2.
    + tests_to_prop. right. split; [reflexivity | lra].
    + tests_to_prop. destruct (Z.even (Qfloor y)); [left | right]; auto.
Qed.

Lemma round_half_even_near (y : Q) :
  - (1 # 2) <= inject_Z (Py.round_half_even y) - y <= 1 # 2.
Proof.
  pose proof (Qfloor_le y) as Hlo. pose proof (Qlt_floor y) as Hhi.
  rewrite inject_Z_plus in Hhi. change (inject_Z 1) with 1 in Hhi.
  destruct (round_half_even_cases y) as [[-> H] | [-> H]].
  - split; lra.
  - rewrite inject_Z_plus. change (inject_Z 1) with 1. split; lra.
Qed.

Lemma round_half_even_between (lo hi : Z) (y : Q) :
  inject_Z lo <= y <= inject_Z hi ->
  (lo <= Py.round_half_even y <= hi)%Z.
Proof.
  intros [Hlo Hhi].
  pose proof (Qfloor_le y) as Hf. pose proof (Qlt_floor y) as Hc.
  assert (lo <= Qfloor y)%Z as Hlof.
  { rewrite <- (Qfloor_Z lo). now apply Qfloor_resp_le. }
  assert (Qfloor y <= hi)%Z as Hfhi.
  { rewrite Zle_Qle. lra. }
  destruct (round_half_even_cases y) as [[-> H] | [-> H]].
  - lia.
  - split; [lia|].
    assert (Qfloor y < hi)%Z; [|lia].
    rewrite Zlt_Qlt. lra.
Qed.

Lemma scale_pos (n : nat) : 0 < inject_Z (10 ^ Z.of_nat n).
Proof.
  replace 0 with (inject_Z 0) by reflexivity. rewrite <- Zlt_Qlt.
  apply Z.pow_pos_nonneg; lia.
Qed.

Lemma round_has_decimals (x : Q) (n : nat) : has_decimals n (Py.round x n).
Proof. eexists. unfold Py.round. reflexivity. Qed.

(** Rounding moves a value by at most half a unit of the last decimal. *)
Lemma round_near (x : Q) (n : nat) :
  Qabs (Py.round x n - x) <= (1 # 2) / inject_Z (10 ^ Z.of_nat n).
Proof.
  unfold Py.round. pose proof (scale_pos n) as Hs.
  set (s := inject_Z (10 ^ Z.of_nat n)) in *.
  pose proof (round_half_even_near (x * s)) as [H1 H2].
  set (k := inject_Z (Py.round_half_even (x * s))) in *.
  assert (k / s - x == (k - x * s) / s) as -> by (field; lra).
  apply Qabs_Qle_condition. split.
  - apply Qle_shift_div_l; [assumption|].
    assert (- ((1 # 2) / s) * s == - (1 # 2)) as -> by (field; lra). lra.
  - apply Qle_shift_div_r; [assumption|].
    assert ((1 # 2) / s * s == 1 # 2) as -> by (field; lra). lra.
Qed.

(** Rounding never leaves an interval whose ends have [n] decimals. *)
Lemma round_between (lo hi : Z) (x : Q) (n : nat) :
  let s := inject_Z (10 ^ Z.of_nat n) in
  inject_Z lo / s <= x <= inject_Z hi / s ->
  inject_Z lo / s <= Py.round x n <= inject_Z hi / s.
Proof.
  intros s [Hlo Hhi]. pose proof (scale_pos n) as Hs. fold s in Hs.
  unfold Py.round. fold s.
  assert (inject_Z lo <= x * s <= inject_Z hi) as Hb.
  { split.
    - assert (inject_Z lo == inject_Z lo / s * s) as -> by (field; lra).
      apply Qmult_le_compat_r; lra.
    - assert (inject_Z hi == inject_Z hi / s * s) as -> by (field; lra).
      apply Qmult_le_compat_r; lra. }
  apply round_half_even_between in Hb. destruct Hb as [Hb1 Hb2].
  rewrite Zle_Qle in Hb1, Hb2.
  split.
  - apply Qle_shift_div_l; [assumption|].
    assert (inject_Z lo / s * s == inject_Z lo) as -> by (field; lra).
    assumption.
  - apply Qle_shift_div_r; [assumption|].
    assert (inject_Z hi / s * s == inject_Z hi) as -> by (field; lra).
    assumption.
Qed.

(** ** Lists: slices, differences, means *)

Lemma len_last_n {A : Type} (n : nat) (l : list A) :
  (n <= Py.len l)%nat -> Py.len (Py.last_n n l) = n.
Proof.
  intro H. unfold Py.last_n, Py.len in *. rewrite length_skipn. lia.
Qed.

Lemma len_last_n_le {A : Type} (n : nat) (l : list A) :
  (Py.len (Py.last_n n l) <= Py.len l)%nat.
Proof. unfold Py.last_n, Py.len. rewrite length_skipn. lia. Qed.


Lemma len_np_diff (l : list Q) :
  Py.len (Py.np_diff l) = (Py.len l - 1)%nat.
Proof.
  unfold Py.len. induction l as [|x [|y l] IH]; simpl in *; try reflexivity.
  rewrite IH. lia.
Qed.

Lemma fold_left_Qplus_nonneg (l : list Q) (acc : Q) :
  0 <= acc -> Forall (fun x => 0 <= x) l -> 0 <= fold_left Qplus l acc.
Proof.
  intros Hacc Hl. revert acc Hacc.
  induction Hl as [|x l Hx _ IH]; intros acc Hacc; simpl.
  - exact Hacc.
  - apply IH. lra.
Qed.

Lemma sum_nonneg (l : list Q) : Forall (fun x => 0 <= x) l -> 0 <= Py.sum l.
Proof. apply fold_left_Qplus_nonneg. lra. Qed.

Lemma np_mean_returns (l : list Q) :
  l <> [] ->
  Py.np_mean l = Ok (Py.sum l / inject_Z (Z.of_nat (Py.len l))).
Proof. destruct l; [congruence | reflexivity]. Qed.

Lemma len_pos (A : Type) (l : list A) :
  l <> [] -> 0 < inject_Z (Z.of_nat (Py.len l)).
Proof.
  intro H. replace 0 with (inject_Z 0) by reflexivity. rewrite <- Zlt_Qlt.
  destruct l; [congruence | unfold Py.len; simpl; lia].
Qed.

Lemma np_mean_nonneg (l : list Q) :
  l <> [] -> Forall (fun x => 0 <= x) l ->
  exists m, Py.np_mean l = Ok m /\ 0 <= m.
Proof.
  intros Hl Hpos. rewrite np_mean_returns by assumption.
  eexists. split; [reflexivity|].
  apply Qle_shift_div_l; [now apply len_pos|].
  pose proof (sum_nonneg l Hpos). lra.
Qed.

Lemma nonempty_of_len {A : Type} (l : list A) :
  (1 <= Py.len l)%nat -> l <> [].
Proof. destruct l; unfold Py.len; simpl; [lia | congruence]. Qed.

Lemma getitem_first {A : Type} (x : A) (l : list A) :
  Py.getitem (x :: l) 0 = Ok x.
Proof. reflexivity. Qed.

(** [l[-k]] exists as soon as [1 <= k <= len(l)]. *)
Lemma getitem_from_end {A : Type} (l : list A) (k : nat) :
  (1 <= k <= Py.len l)%nat -> Py.returns (Py.getitem l (- Z.of_nat k)).
Proof.
  intros [H1 H2]. unfold Py.getitem, Py.returns.
  destruct (- Z.of_nat k <? 0)%Z eqn:E; [|apply Z.ltb_ge in E; lia].
  destruct (- Z.of_nat k + Z.of_nat (Py.len l) <? 0)%Z eqn:E2;
    [apply Z.ltb_lt in E2; lia|].
  destruct (nth_error l (Z.to_nat (- Z.of_nat k + Z.of_nat (Py.len l))))
    eqn:E3; [eauto|].
  apply nth_error_None in E3. unfold Py.len in *. lia.
Qed.

(** ** The RSI *)

(** With at least [period + 1 >= 2] closes both means exist, the loss
    average is positive when it is not zero, and the rounded quotient
    stays between 0 and 100. *)
Lemma calculate_rsi_range (closes : list Q) (period : nat) :
  (1 <= period)%nat ->
  exists r, IndicatorCalculator.calculate_rsi closes period = Ok r
            /\ 0 <= r <= 100.
Proof.
  intro Hp. unfold IndicatorCalculator.calculate_rsi.
  destruct (Py.len closes <? period + 1)%nat eqn:Hlen.
  { exists 50.0. split; [reflexivity | lra]. }
  apply Nat.ltb_ge in Hlen.
  set (changes := Py.np_diff (Py.last_n (period + 1) closes)).
  assert (changes <> []) as Hne.
  { apply nonempty_of_len. unfold changes.
    rewrite len_np_diff, len_last_n by assumption. lia. }
  set (gains := map _ changes). set (losses := map _ changes).
  destruct (np_mean_nonneg gains) as (g & -> & Hg).
  { intro E. apply map_eq_nil in E. contradiction. }
  { apply Forall_map, Forall_forall. intros c _.
    destruct (Py.gtb c 0) eqn:E; tests_to_prop; lra. }
  destruct (np_mean_nonneg losses) as (l & -> & Hl).
  { intro E. apply map_eq_nil in E. contradiction. }
  { apply Forall_map, Forall_forall. intros c _.
    destruct (Py.ltb c 0) eqn:E; tests_to_prop; lra. }
  cbn [Py.bind].
  destruct (Py.eqb l 0) eqn:El.
  { exists 100.0. split; [reflexivity | lra]. }
  tests_to_prop. assert (0 < l) as Hlpos by lra.
  rewrite div_ok by assumption. cbn [Py.bind].
  assert (0 <= g / l) as Hrs by (apply Qle_shift_div_l; lra).
  rewrite div_ok by lra. cbn [Py.bind].
  eexists. split; [reflexivity|].
  assert (0 < 100 / (1 + g / l)) by (apply Qlt_shift_div_l; lra).
  assert (100 / (1 + g / l) <= 100) by (apply Qle_shift_div_r; lra).
  pose proof (round_between 0 10000 (100 - 100 / (1 + g / l)) 2) as Hr.
  cbv zeta in Hr.
  assert (inject_Z 0 / inject_Z (10 ^ Z.of_nat 2) == 0) as E0 by reflexivity.
  assert (inject_Z 10000 / inject_Z (10 ^ Z.of_nat 2) == 100) as E1
      by reflexivity.
  rewrite E0, E1 in Hr. apply Hr. split; lra.
Qed.

(** ** The indicator engine always answers *)

Lemma returns_ok {A : Type} (a : A) : Py.returns (Ok a).
Proof. now exists a. Qed.

Lemma returns_bind {A B : Type} (m : Py.res A) (k : A -> Py.res B) :
  Py.returns m -> (forall a, m = Ok a -> Py.returns (k a)) ->
  Py.returns (Py.bind m k).
Proof. intros [a ->] Hk. simpl. now apply Hk. Qed.

Lemma inject_nat_succ_nonzero (n : nat) :
  ~ inject_Z (Z.of_nat n + 1) == 0.
Proof.
  intro H. assert (0 < inject_Z (Z.of_nat n + 1)); [|lra].
  replace 0 with (inject_Z 0) by reflexivity. rewrite <- Zlt_Qlt. lia.
Qed.

Lemma _ema_returns (data : list Q) (period : nat) :
  (1 <= period)%nat -> Py.returns (IndicatorCalculator._ema data period).
Proof.
  intro Hp. unfold IndicatorCalculator._ema.
  destruct (Py.len data <? period)%nat eqn:Hlen.
  - destruct data as [|x data]; [apply returns_ok|].
    apply (getitem_from_end (x :: data) 1). unfold Py.len. simpl. lia.
  - apply Nat.ltb_ge in Hlen.
    rewrite div_ok by apply inject_nat_succ_nonzero. cbn [Py.bind].
    rewrite np_mean_returns.
    + cbn [Py.bind]. apply returns_ok.
    + apply nonempty_of_len. unfold Py.len in *. rewrite length_firstn. lia.
Qed.

Lemma calculate_macd_returns (closes : list Q) :
  Py.returns (IndicatorCalculator.calculate_macd closes 12 26 9).
Proof.
  unfold IndicatorCalculator.calculate_macd.
  destruct (Py.len closes <? 26 + 9)%nat; [apply returns_ok|].
  apply returns_bind; [apply _ema_returns; lia | intros ema_fast _].
  apply returns_bind; [apply _ema_returns; lia | intros ema_slow _].
  apply returns_ok.
Qed.

Lemma calculate_emas_returns (closes : list Q) :
  Py.returns (IndicatorCalculator.calculate_emas closes).
Proof.
  unfold IndicatorCalculator.calculate_emas. cbn [fold_left Py.bind].
  repeat
    match goal with
    | |- context [(?p <=? Py.len closes)%nat] =>
      destruct (p <=? Py.len closes)%nat;
      [destruct (_ema_returns closes p) as [? ->]; [lia|] |];
      cbn [Py.bind]
    end;
    apply returns_ok.
Qed.

Lemma calculate_smas_returns (closes : list Q) :
  Py.returns (IndicatorCalculator.calculate_smas closes).
Proof.
  unfold IndicatorCalculator.calculate_smas. cbn [fold_left Py.bind].
  repeat
    match goal with
    | |- context [(?p <=? Py.len closes)%nat] =>
      let E := fresh "E" in
      destruct (p <=? Py.len closes)%nat eqn:E;
      [apply Nat.leb_le in E;
       rewrite (np_mean_returns (Py.last_n p closes))
         by (apply nonempty_of_len; rewrite len_last_n; lia) |];
      cbn [Py.bind]
    end;
    apply returns_ok.
Qed.

Lemma analyze_volume_returns (volumes : list Q) :
  Py.returns (IndicatorCalculator.analyze_volume volumes).
Proof.
  unfold IndicatorCalculator.analyze_volume.
  destruct (Py.len volumes <? 5)%nat eqn:Hlen; [apply returns_ok|].
  apply Nat.ltb_ge in Hlen.
  rewrite (np_mean_returns (Py.last_n 5 volumes))
    by (apply nonempty_of_len; rewrite len_last_n; lia).
  cbn [Py.bind].
  assert (Py.returns
            (if (20 <=? Py.len volumes)%nat
             then Py.np_mean (Py.last_n 20 volumes)
             else Py.np_mean volumes)) as [avg_vol ->].
  { destruct (20 <=? Py.len volumes)%nat eqn:E.
    - apply Nat.leb_le in E. rewrite np_mean_returns; [apply returns_ok|].
      apply nonempty_of_len. rewrite len_last_n; lia.
    - rewrite np_mean_returns; [apply returns_ok|].
      apply nonempty_of_len. lia. }
  cbn [Py.bind].
  destruct (Py.gtb avg_vol 0) eqn:E.
  - tests_to_prop. rewrite div_ok by lra. cbn [Py.bind]. apply returns_ok.
  - cbn [Py.bind]. apply returns_ok.
Qed.

(** [calculate_all] answers for every candle list; for a non-empty one the
    five keys are present and the RSI is in range. *)
Lemma calculate_all_returns (candles : list Candle.t) :
  exists ind,
    IndicatorCalculator.calculate_all candles = Ok ind
    /\ match Indicators.rsi ind with
       | Some r => 0 <= r <= 100
       | None => candles = []
       end.
Proof.
  destruct candles as [|c candles].
  { exists Indicators.empty. split; reflexivity. }
  unfold IndicatorCalculator.calculate_all.
  destruct (calculate_rsi_range (map Candle.close (c :: candles)) 14)
    as (r & -> & Hr); [lia|].
  destruct (calculate_macd_returns (map Candle.close (c :: candles)))
    as [macd ->].
  destruct (calculate_emas_returns (map Candle.close (c :: candles)))
    as [ema ->].
  destruct (calculate_smas_returns (map Candle.close (c :: candles)))
    as [sma ->].
  destruct (analyze_volume_returns (map Candle.volume (c :: candles)))
    as [vol ->].
  cbn [Py.bind]. eexists. split; [reflexivity|]. exact Hr.
Qed.



(** C6.  With fewer than [period + 1] closes the RSI is the constant
    [50.0], for the period 14 of the engine as for any other; three
    candles therefore give an indicator set whose [rsi] is [50.0]. *)
Theorem rsi_short_input_is_50 :
  (forall (closes : list Q) (period : nat),
      (Py.len closes < period + 1)%nat ->
      IndicatorCalculator.calculate_rsi closes period = Ok 50.0)
  /\ (forall c1 c2 c3 : Candle.t,
         exists ind,
           IndicatorCalculator.calculate_all [c1; c2; c3] = Ok ind
           /\ Indicators.rsi ind = Some 50.0)
  /\ 50.0 == 50.
Proof.
  split; [|split].
  - intros closes period H. unfold IndicatorCalculator.calculate_rsi.
    apply Nat.ltb_lt in H. now rewrite H.
  - intros c1 c2 c3. eexists. split; reflexivity.
  - reflexivity.
Qed.

Lemma rsi_short_input_is_50_witness :
  IndicatorCalculator.calculate_rsi [101; 102; 100.5] 14 = Ok 50.0.
Proof.
  apply (proj1 rsi_short_input_is_50 [101; 102; 100.5] 14%nat).
  unfold Py.len. simpl. lia.
Defined.

(** ** Guards *)

Lemma inject_Z_pos_nonzero (z : Z) : (0 < z)%Z -> ~ inject_Z z == 0.
Proof.
  intros H E. assert (0 < inject_Z z); [|lra].
  replace 0 with (inject_Z 0) by reflexivity. now rewrite <- Zlt_Qlt.
Qed.

Lemma getitem_last {A : Type} (l : list A) :
  l <> [] -> Py.returns (Py.getitem l (-1)).
Proof.
  intro H. apply (getitem_from_end l 1).
  destruct l; [congruence | unfold Py.len; simpl; lia].
Qed.

Lemma getitem_fifth_last {A : Type} (l : list A) :
  (5 <= Py.len l)%nat -> Py.returns (Py.getitem l (-5)).
Proof. intro H. apply (getitem_from_end l 5). lia. Qed.

Lemma guarded_div_returns (x y c : Q) :
  Py.returns (if Py.truthy y then Py.div x y else Ok c).
Proof.
  destruct (Py.truthy y) eqn:E; [|apply returns_ok].
  tests_to_prop. rewrite div_ok by assumption. apply returns_ok.
Qed.

(** ** Scorer A: the scores *)

Lemma momentum_returns (recent_closes : list Q) :
  Py.returns
    (if (2 <=? Py.len recent_closes)%nat then
       first <- Py.getitem recent_closes 0 ;;
       if negb (Py.eqb first 0) then
         last <- Py.getitem recent_closes (-1) ;;
         Py.div (last - first) first
       else Ok 0
     else Ok 0).
Proof.
  destruct (2 <=? Py.len recent_closes)%nat eqn:E; [|apply returns_ok].
  apply Nat.leb_le in E.
  destruct recent_closes as [|first l]; [unfold Py.len in E; simpl in E; lia|].
  rewrite getitem_first. cbn [Py.bind].
  destruct (Py.eqb first 0) eqn:E0; [apply returns_ok|]. cbn [negb].
  tests_to_prop.
  destruct (getitem_last (first :: l)) as [last ->]; [discriminate|].
  cbn [Py.bind]. rewrite div_ok by assumption. apply returns_ok.
Qed.

Lemma pattern_scores_ok (candles : list Candle.t) (ind : Indicators.t) :
  (5 <= Py.len candles)%nat ->
  exists s,
    PatchTSTPredictor.pattern_scores candles ind = Ok s
    /\ Normalised 20 90 (PatchTSTPredictor.bullish_score s)
         (PatchTSTPredictor.bearish_score s)
         (PatchTSTPredictor.bullish_prob s) (PatchTSTPredictor.bearish_prob s)
         (PatchTSTPredictor.neutral_prob s)
    /\ (40 <= PatchTSTPredictor.bullish_score s
              + PatchTSTPredictor.bearish_score s)%Z.
Proof.
  intro Hlen. unfold PatchTSTPredictor.pattern_scores.
  destruct (momentum_returns (map Candle.close (Py.last_n 10 candles)))
    as [momentum ->].
  cbn [Py.bind].
  pose proof (filter_length_le
                (fun c => Py.gtb (Candle.close c) (Candle.open c))
                (Py.last_n 5 candles)) as Hcount.
  pose proof (len_last_n 5 candles Hlen) as H5.
  unfold Py.len in H5, Hcount |- *. rewrite H5 in Hcount |- *.
  set (bullish_count := Z.of_nat (List.length (filter _ _))).
  assert (0 <= bullish_count <= 5)%Z as Hbc by (unfold bullish_count; lia).
  clearbody bullish_count.
  repeat match goal with
         | |- context [if ?b then _ else _] => destruct b
         end;
    cbn beta iota zeta;
    (rewrite !div_ok by (apply inject_Z_pos_nonzero; lia));
    cbn [Py.bind]; (eexists; split; [reflexivity|]);
    unfold Normalised;
    cbn [PatchTSTPredictor.bullish_score PatchTSTPredictor.bearish_score
         PatchTSTPredictor.bullish_prob PatchTSTPredictor.bearish_prob
         PatchTSTPredictor.neutral_prob];
    repeat split; first [lia | reflexivity].
Qed.

(** ** Scorer B: the features and the signal counts *)

Lemma _extract_features_returns (candles : list Candle.t) (ind : Indicators.t) :
  (5 <= Py.len candles)%nat ->
  Py.returns (LightGBMClassifier._extract_features candles ind).
Proof.
  intro Hlen. unfold LightGBMClassifier._extract_features.
  apply returns_bind; [apply getitem_last, nonempty_of_len; lia|].
  intros last_candle _.
  set (prev_candles :=
         if (10 <=? Py.len candles)%nat then Py.last_n 10 candles else candles).
  assert (5 <= Py.len prev_candles)%nat as Hprev.
  { unfold prev_candles. destruct (10 <=? Py.len candles)%nat eqn:E.
    - apply Nat.leb_le in E. rewrite len_last_n; lia.
    - assumption. }
  clearbody prev_candles.
  apply returns_bind.
  { destruct (Indicators.rsi ind) as [r|]; [|apply returns_ok].
    destruct (Py.truthy r); [|apply returns_ok].
    rewrite div_ok by lra. apply returns_ok. }
  intros rsi _.
  apply returns_bind; [apply guarded_div_returns | intros ema_trend _].
  assert (map Candle.volume prev_candles <> []) as Hvol.
  { apply nonempty_of_len. unfold Py.len in *. rewrite length_map. lia. }
  apply returns_bind.
  { destruct (map Candle.volume prev_candles) eqn:E; [congruence|].
    rewrite np_mean_returns by discriminate. apply returns_ok. }
  intros avg_volume _.
  apply returns_bind; [apply guarded_div_returns | intros volume_ratio _].
  apply returns_bind; [apply guarded_div_returns | intros wick_ratio _].
  assert (5 <= Py.len (map Candle.close prev_candles))%nat as Hcl.
  { unfold Py.len in *. rewrite length_map. lia. }
  apply returns_bind.
  { destruct (5 <=? _)%nat; [|apply returns_ok].
    apply returns_bind; [now apply getitem_fifth_last | intros c5 _].
    destruct (Py.truthy c5) eqn:E; [|apply returns_ok]. tests_to_prop.
    apply returns_bind;
      [apply getitem_last, nonempty_of_len; lia | intros c1 _].
    rewrite div_ok by assumption. apply returns_ok. }
  intros momentum_5 _.
  apply returns_bind; [|intros; apply returns_ok].
  destruct (map Candle.close prev_candles) as [|c0 closes] eqn:E;
    [unfold Py.len in Hcl; simpl in Hcl; lia|].
  rewrite getitem_first. cbn [Py.bind].
  destruct (Py.truthy c0) eqn:E0; [|apply returns_ok]. tests_to_prop.
  apply returns_bind; [apply getitem_last; discriminate | intros c1 _].
  rewrite div_ok by assumption. apply returns_ok.
Qed.

(** One [if] chain that adds at most [w] to the two counters [b0], [r0]. *)
Ltac count_step b0 r0 w :=
  match goal with
  | |- context [match ?p with pair _ _ => _ end] =>
    let q := fresh "q" in
    let E := fresh "E" in
    let H := fresh "H" in
    let b := fresh "b" in
    let r := fresh "r" in
    remember p as q eqn:E;
    assert (b0 <= fst q /\ r0 <= snd q
            /\ fst q + snd q <= b0 + r0 + w)%Z as H
      by (subst q;
          repeat match goal with
                 | |- context [if ?c then _ else _] => destruct c
                 end;
          cbn [fst snd]; lia);
    clear E; destruct q as [b r]; cbn [fst snd] in H; cbn beta iota zeta
  end.

Lemma rule_signals_ok (features : Features.t) :
  exists s,
    LightGBMClassifier.rule_signals features = Ok s
    /\ Normalised 3 9 (LightGBMClassifier.bullish_signals s)
         (LightGBMClassifier.bearish_signals s)
         (LightGBMClassifier.bullish_prob s)
         (LightGBMClassifier.bearish_prob s)
         (LightGBMClassifier.neutral_prob s).
Proof.
  unfold LightGBMClassifier.rule_signals. cbn zeta.
  count_step 0%Z 0%Z 2%Z.
  count_step b r 1%Z.
  count_step b0 r0 2%Z.
  count_step b1 r1 1%Z.
  count_step b2 r2 2%Z.
  count_step b3 r3 1%Z.
  rewrite !div_ok by (apply inject_Z_pos_nonzero; lia).
  cbn [Py.bind]. eexists. split; [reflexivity|].
  unfold Normalised.
  cbn [LightGBMClassifier.bullish_signals LightGBMClassifier.bearish_signals
       LightGBMClassifier.bullish_prob LightGBMClassifier.bearish_prob
       LightGBMClassifier.neutral_prob].
  repeat split; first [lia | reflexivity].
Qed.

(** ** Normalised scores are a probability distribution *)

Lemma baseline_share (B R base : Q) :
  0 <= B -> 0 <= R -> 0 < base ->
  let T := B + R + base in
  1 - B / T - R / T == base / T
  /\ 0 <= B / T <= 1 /\ 0 <= R / T <= 1 /\ 0 < base / T <= 1
  /\ (B + R < 9 * base -> 0.1 < 1 - B / T - R / T).
Proof.
  intros HB HR Hb T. assert (0 < T) as HT by (unfold T; lra).
  assert (1 - B / T - R / T == base / T) as E by (unfold T; field; lra).
  repeat split.
  - exact E.
  - apply Qle_shift_div_l; lra.
  - apply Qle_shift_div_r; unfold T in *; lra.
  - apply Qle_shift_div_l; lra.
  - apply Qle_shift_div_r; unfold T in *; lra.
  - apply Qlt_shift_div_l; lra.
  - apply Qle_shift_div_r; unfold T in *; lra.
  - intro H. rewrite E. apply Qlt_shift_div_l; unfold T in *; lra.
Qed.

Lemma normalised_facts (base limit bull bear : Z) (bp brp np : Q) :
  (0 < base)%Z -> (limit < 9 * base)%Z ->
  Normalised base limit bull bear bp brp np ->
  in_unit bp /\ in_unit brp /\ in_unit np /\ 0.1 < np
  /\ np == inject_Z base / inject_Z (bull + bear + base)
  /\ bp + brp + np == 1.
Proof.
  intros Hbase Hlimit (Hb & Hr & Hsum & -> & -> & ->).
  rewrite Zle_Qle in Hb, Hr. rewrite Zlt_Qlt in Hbase.
  assert (inject_Z bull + inject_Z bear < 9 * inject_Z base) as Hlt.
  { assert (bull + bear < 9 * base)%Z as H by lia.
    rewrite Zlt_Qlt, inject_Z_plus, inject_Z_mult in H. exact H. }
  change (inject_Z 0) with 0 in *.
  destruct (baseline_share (inject_Z bull) (inject_Z bear) (inject_Z base)
              Hb Hr Hbase) as (E & Hbp & Hbrp & Hnp & Hfloor).
  cbv zeta in *. specialize (Hfloor Hlt).
  rewrite !inject_Z_plus. unfold in_unit.
  set (T := inject_Z bull + inject_Z bear + inject_Z base) in *.
  repeat split; try tauto; try lra.
Qed.

Lemma max2_floor_unused (np : Q) : 0.1 < np -> Py.max2 np 0.1 = np.
Proof.
  intro H. unfold Py.max2.
  destruct (Py.ltb np 0.1) eqn:E; [tests_to_prop; lra | reflexivity].
Qed.

Lemma min2_between (x cap : Q) :
  0 <= x -> 0 <= cap -> 0 <= Py.min2 x cap <= cap.
Proof.
  intros Hx Hc.
  destruct (min2_cases x cap) as [[-> H] | [-> H]]; split; lra.
Qed.

(** ** What the two scorers return *)

Lemma neutral_prediction_ok :
  ScorerOutput_ok (Scorer.mk neutral 33 (Probs.mk 0.33 0.33 0.34))
  /\ Probs.total (Probs.mk 0.33 0.33 0.34) == 1.
Proof.
  split; [|reflexivity].
  constructor; unfold in_unit, within, Probs.total; simpl; lra.
Qed.

Lemma patchtst_decide_ok (s : PatchTSTPredictor.Scores) :
  Normalised 20 90 (PatchTSTPredictor.bullish_score s)
    (PatchTSTPredictor.bearish_score s) (PatchTSTPredictor.bullish_prob s)
    (PatchTSTPredictor.bearish_prob s) (PatchTSTPredictor.neutral_prob s) ->
  Scorer.probabilities (PatchTSTPredictor.decide s)
  = Probs.mk (PatchTSTPredictor.bullish_prob s)
      (PatchTSTPredictor.bearish_prob s) (PatchTSTPredictor.neutral_prob s)
  /\ 0 <= Scorer.confidence (PatchTSTPredictor.decide s) <= 90.
Proof.
  intro Hn.
  destruct (normalised_facts 20 90 _ _ _ _ _ ltac:(lia) ltac:(lia) Hn)
    as (Hb & Hr & Hnp & Hfloor & _ & _).
  unfold in_unit in *. unfold PatchTSTPredictor.decide.
  rewrite (max2_floor_unused _ Hfloor).
  repeat match goal with
         | |- context [if ?c then _ else _] => destruct c
         end;
    cbn [Scorer.probabilities Scorer.confidence];
    (split; [reflexivity | apply min2_between; lra]).
Qed.

Lemma lightgbm_decide_ok (s : LightGBMClassifier.Signals) :
  Normalised 3 9 (LightGBMClassifier.bullish_signals s)
    (LightGBMClassifier.bearish_signals s) (LightGBMClassifier.bullish_prob s)
    (LightGBMClassifier.bearish_prob s) (LightGBMClassifier.neutral_prob s) ->
  Scorer.probabilities (LightGBMClassifier.decide s)
  = Probs.mk (LightGBMClassifier.bullish_prob s)
      (LightGBMClassifier.bearish_prob s) (LightGBMClassifier.neutral_prob s)
  /\ 0 <= Scorer.confidence (LightGBMClassifier.decide s) <= 85.
Proof.
  intro Hn.
  destruct (normalised_facts 3 9 _ _ _ _ _ ltac:(lia) ltac:(lia) Hn)
    as (Hb & Hr & Hnp & Hfloor & _ & _).
  unfold in_unit in *. unfold LightGBMClassifier.decide.
  rewrite (max2_floor_unused _ Hfloor).
  repeat match goal with
         | |- context [if ?c then _ else _] => destruct c
         end;
    cbn [Scorer.probabilities Scorer.confidence];
    (split; [reflexivity | first [apply min2_between; lra | lra]]).
Qed.

(** A distribution obtained from normalised scores meets the invariant of a
    scorer output, and its components add up to one exactly. *)
Lemma normalised_output_ok (base limit bull bear : Z) (bp brp np cap : Q)
  (o : Scorer.t) :
  (0 < base)%Z -> (limit < 9 * base)%Z -> cap <= 100 ->
  Normalised base limit bull bear bp brp np ->
  Scorer.probabilities o = Probs.mk bp brp np ->
  0 <= Scorer.confidence o <= cap ->
  ScorerOutput_ok o /\ Probs.total (Scorer.probabilities o) == 1.
Proof.
  intros Hbase Hlimit Hcap Hn Hp Hc.
  destruct (normalised_facts _ _ _ _ _ _ _ Hbase Hlimit Hn)
    as (Hb & Hr & Hnp & _ & _ & Hsum).
  assert (Probs.total (Scorer.probabilities o) == 1) as Ht
      by (rewrite Hp; exact Hsum).
  split; [|exact Ht].
  constructor; rewrite ?Hp; cbn [Probs.bullish Probs.bearish Probs.neutral];
    try assumption.
  - lra.
  - unfold within. rewrite <- Hp, Ht. lra.
Qed.

Lemma patchtst_predict_long (candles : list Candle.t) (ind : Indicators.t) :
  (5 <= Py.len candles)%nat ->
  exists s,
    PatchTSTPredictor.pattern_scores candles ind = Ok s
    /\ PatchTSTPredictor.predict candles ind = Ok (PatchTSTPredictor.decide s)
    /\ Normalised 20 90 (PatchTSTPredictor.bullish_score s)
         (PatchTSTPredictor.bearish_score s)
         (PatchTSTPredictor.bullish_prob s)
         (PatchTSTPredictor.bearish_prob s)
         (PatchTSTPredictor.neutral_prob s).
Proof.
  intro Hlen. destruct (pattern_scores_ok candles ind Hlen) as (s & E & Hn & _).
  exists s. split; [exact E|]. split; [|exact Hn].
  unfold PatchTSTPredictor.predict, PatchTSTPredictor._analyze_patterns.
  apply Nat.ltb_ge in Hlen. rewrite Hlen, E. reflexivity.
Qed.

Lemma lightgbm_predict_long (candles : list Candle.t) (ind : Indicators.t) :
  (5 <= Py.len candles)%nat ->
  exists features s,
    LightGBMClassifier._extract_features candles ind = Ok features
    /\ LightGBMClassifier.rule_signals features = Ok s
    /\ LightGBMClassifier.predict candles ind
       = Ok (LightGBMClassifier.decide s)
    /\ Normalised 3 9 (LightGBMClassifier.bullish_signals s)
         (LightGBMClassifier.bearish_signals s)
         (LightGBMClassifier.bullish_prob s)
         (LightGBMClassifier.bearish_prob s)
         (LightGBMClassifier.neutral_prob s).
Proof.
  intro Hlen.
  destruct (_extract_features_returns candles ind Hlen) as [features Ef].
  destruct (rule_signals_ok features) as (s & Es & Hn).
  exists features, s.
  split; [exact Ef|]. split; [exact Es|]. split; [|exact Hn].
  unfold LightGBMClassifier.predict,
    LightGBMClassifier._rule_based_prediction.
  apply Nat.ltb_ge in Hlen. rewrite Hlen, Ef. cbn [Py.bind].
  rewrite Es. reflexivity.
Qed.

Lemma patchtst_predict_ok (candles : list Candle.t) (ind : Indicators.t) :
  exists o,
    PatchTSTPredictor.predict candles ind = Ok o
    /\ ScorerOutput_ok o /\ Probs.total (Scorer.probabilities o) == 1.
Proof.
  destruct (Nat.lt_ge_cases (Py.len candles) 5) as [Hlen | Hlen].
  - exists PatchTSTPredictor._neutral_prediction. split.
    + unfold PatchTSTPredictor.predict, PatchTSTPredictor._analyze_patterns.
      apply Nat.ltb_lt in Hlen. now rewrite Hlen.
    + apply neutral_prediction_ok.
  - destruct (patchtst_predict_long candles ind Hlen) as (s & _ & E & Hn).
    exists (PatchTSTPredictor.decide s). split; [exact E|].
    destruct (patchtst_decide_ok s Hn) as [Hp Hc].
    apply (normalised_output_ok 20 90 _ _ _ _ _ 90 _
             ltac:(lia) ltac:(lia) ltac:(lra) Hn Hp Hc).
Qed.

Lemma lightgbm_predict_ok (candles : list Candle.t) (ind : Indicators.t) :
  exists o,
    LightGBMClassifier.predict candles ind = Ok o
    /\ ScorerOutput_ok o /\ Probs.total (Scorer.probabilities o) == 1.
Proof.
  destruct (Nat.lt_ge_cases (Py.len candles) 5) as [Hlen | Hlen].
  - exists LightGBMClassifier._neutral_prediction. split.
    + unfold LightGBMClassifier.predict.
      apply Nat.ltb_lt in Hlen. now rewrite Hlen.
    + apply neutral_prediction_ok.
  - destruct (lightgbm_predict_long candles ind Hlen)
      as (f & s & _ & _ & E & Hn).
    exists (LightGBMClassifier.decide s). split; [exact E|].
    destruct (lightgbm_decide_ok s Hn) as [Hp Hc].
    apply (normalised_output_ok 3 9 _ _ _ _ _ 85 _
             ltac:(lia) ltac:(lia) ltac:(lra) Hn Hp Hc).
Qed.

(** C4.  For every candle sequence and indicator set both scorers answer,
    and the three probabilities they report (the neutral one after its
    floor of 0.1) add up to 1 within 1e-6 (in fact exactly), each of them
    between 0 and 1. *)
Theorem scorer_probabilities_sum_to_one :
  forall (candles : list Candle.t) (indicators : Indicators.t),
  exists a b : Scorer.t,
    PatchTSTPredictor.predict candles indicators = Ok a
    /\ LightGBMClassifier.predict candles indicators = Ok b
    /\ (within (Probs.total (Scorer.probabilities a)) 1 (1 # 1000000)
        /\ Probs.total (Scorer.probabilities a) == 1
        /\ in_unit (Probs.bullish (Scorer.probabilities a))
        /\ in_unit (Probs.bearish (Scorer.probabilities a))
        /\ in_unit (Probs.neutral (Scorer.probabilities a)))
    /\ (within (Probs.total (Scorer.probabilities b)) 1 (1 # 1000000)
        /\ Probs.total (Scorer.probabilities b) == 1
        /\ in_unit (Probs.bullish (Scorer.probabilities b))
        /\ in_unit (Probs.bearish (Scorer.probabilities b))
        /\ in_unit (Probs.neutral (Scorer.probabilities b))).
Proof.
  intros candles indicators.
  destruct (patchtst_predict_ok candles indicators) as (a & Ea & [] & Sa).
  destruct (lightgbm_predict_ok candles indicators) as (b & Eb & [] & Sb).
  exists a, b. split; [exact Ea|]. split; [exact Eb|].
  split; repeat (split; [assumption|]); assumption.
Qed.

(** C7.  With fewer than five candles, whatever the indicators, scorer A
    and scorer B both return direction neutral, confidence 33 and the
    probabilities 0.33, 0.33, 0.34. *)
Theorem scorers_neutral_below_5_candles :
  forall (candles : list Candle.t) (indicators : Indicators.t),
    (Py.len candles < 5)%nat ->
    PatchTSTPredictor.predict candles indicators
    = Ok (Scorer.mk neutral 33 (Probs.mk 0.33 0.33 0.34))
    /\ LightGBMClassifier.predict candles indicators
       = Ok (Scorer.mk neutral 33 (Probs.mk 0.33 0.33 0.34)).
Proof.
  intros candles indicators H. apply Nat.ltb_lt in H.
  unfold PatchTSTPredictor.predict, PatchTSTPredictor._analyze_patterns,
    LightGBMClassifier.predict.
  rewrite H. split; reflexivity.
Qed.

Lemma scorers_neutral_below_5_candles_witness :
  PatchTSTPredictor.predict
    [Candle.mk 1 10 12 9 11 100; Candle.mk 2 11 13 10 12.5 80]
    Indicators.empty
  = Ok (Scorer.mk neutral 33 (Probs.mk 0.33 0.33 0.34))
  /\ LightGBMClassifier.predict
       [Candle.mk 1 10 12 9 11 100; Candle.mk 2 11 13 10 12.5 80]
       Indicators.empty
     = Ok (Scorer.mk neutral 33 (Probs.mk 0.33 0.33 0.34)).
Proof.
  apply (scorers_neutral_below_5_candles
           [Candle.mk 1 10 12 9 11 100; Candle.mk 2 11 13 10 12.5 80]
           Indicators.empty).
  unfold Py.len. simpl. lia.
Defined.

(** C10.  With at least five candles the raw neutral probability of each
    scorer is above 0.1: in scorer A it is 20/(bullish_score +
    bearish_score + 20) with the two scores adding up to at most 90, in
    scorer B it is 3/(bullish_signals + bearish_signals + 3) with the two
    counts adding up to at most 9.  The reported neutral value
    [max(neutral_prob, 0.1)] is therefore the raw one, and the three
    reported probabilities add up to exactly 1. *)
Theorem neutral_floor_never_applies :
  forall (candles : list Candle.t) (indicators : Indicators.t),
    (5 <= Py.len candles)%nat ->
    (exists s : PatchTSTPredictor.Scores,
        PatchTSTPredictor.pattern_scores candles indicators = Ok s
        /\ PatchTSTPredictor.predict candles indicators
           = Ok (PatchTSTPredictor.decide s)
        /\ (PatchTSTPredictor.bullish_score s
            + PatchTSTPredictor.bearish_score s <= 90)%Z
        /\ PatchTSTPredictor.neutral_prob s
           == 20 / inject_Z (PatchTSTPredictor.bullish_score s
                             + PatchTSTPredictor.bearish_score s + 20)
        /\ 0.1 < PatchTSTPredictor.neutral_prob s
        /\ Py.max2 (PatchTSTPredictor.neutral_prob s) 0.1
           = PatchTSTPredictor.neutral_prob s
        /\ Probs.neutral (Scorer.probabilities (PatchTSTPredictor.decide s))
           = PatchTSTPredictor.neutral_prob s
        /\ Probs.total (Scorer.probabilities (PatchTSTPredictor.decide s))
           == 1)
    /\ (exists (features : Features.t) (s : LightGBMClassifier.Signals),
           LightGBMClassifier._extract_features candles indicators
           = Ok features
           /\ LightGBMClassifier.rule_signals features = Ok s
           /\ LightGBMClassifier.predict candles indicators
              = Ok (LightGBMClassifier.decide s)
           /\ (LightGBMClassifier.bullish_signals s
               + LightGBMClassifier.bearish_signals s <= 9)%Z
           /\ LightGBMClassifier.neutral_prob s
              == 3 / inject_Z (LightGBMClassifier.bullish_signals s
                               + LightGBMClassifier.bearish_signals s + 3)
           /\ 0.1 < LightGBMClassifier.neutral_prob s
           /\ Py.max2 (LightGBMClassifier.neutral_prob s) 0.1
              = LightGBMClassifier.neutral_prob s
           /\ Probs.neutral
                (Scorer.probabilities (LightGBMClassifier.decide s))
              = LightGBMClassifier.neutral_prob s
           /\ Probs.total
                (Scorer.probabilities (LightGBMClassifier.decide s))
              == 1).
Proof.
  intros candles indicators Hlen. split.
  - destruct (patchtst_predict_long candles indicators Hlen)
      as (s & Es & Ep & Hn).
    exists s.
    destruct (normalised_facts 20 90 _ _ _ _ _ ltac:(lia) ltac:(lia) Hn)
      as (_ & _ & _ & Hfloor & Hshare & Hsum).
    destruct (patchtst_decide_ok s Hn) as [Hp _].
    destruct Hn as (_ & _ & Hlimit & _).
    repeat split; try assumption.
    + now apply max2_floor_unused.
    + now rewrite Hp.
    + rewrite Hp. exact Hsum.
  - destruct (lightgbm_predict_long candles indicators Hlen)
      as (features & s & Ef & Es & Ep & Hn).
    exists features, s.
    destruct (normalised_facts 3 9 _ _ _ _ _ ltac:(lia) ltac:(lia) Hn)
      as (_ & _ & _ & Hfloor & Hshare & Hsum).
    destruct (lightgbm_decide_ok s Hn) as [Hp _].
    destruct Hn as (_ & _ & Hlimit & _).
    repeat split; try assumption.
    + now apply max2_floor_unused.
    + now rewrite Hp.
    + rewrite Hp. exact Hsum.
Qed.

Lemma neutral_floor_never_applies_witness :
  (exists s : PatchTSTPredictor.Scores,
      PatchTSTPredictor.pattern_scores
        (repeat (Candle.mk 1 10 12 9 11 100) 5) Indicators.empty = Ok s
      /\ 0.1 < PatchTSTPredictor.neutral_prob s)
  /\ (exists (features : Features.t) (s : LightGBMClassifier.Signals),
         LightGBMClassifier._extract_features
           (repeat (Candle.mk 1 10 12 9 11 100) 5) Indicators.empty
         = Ok features
         /\ LightGBMClassifier.rule_signals features = Ok s
         /\ 0.1 < LightGBMClassifier.neutral_prob s).
Proof.
  destruct (neutral_floor_never_applies
              (repeat (Candle.mk 1 10 12 9 11 100) 5) Indicators.empty)
    as [(s & Es & _ & _ & _ & Hs & _) (f & s' & Ef & Es' & _ & _ & _ & Hs' & _)].
  - unfold Py.len. simpl. lia.
  - split.
    + exists s. split; assumption.
    + exists f, s'. repeat split; assumption.
Defined.

(** ** Fusion *)

Lemma Direction_eqb_eq (a b : Direction) : Direction_eqb a b = true <-> a = b.
Proof. destruct a, b; simpl; split; congruence. Qed.

Lemma Direction_eqb_neq (a b : Direction) :
  Direction_eqb a b = false <-> a <> b.
Proof. destruct a, b; simpl; split; congruence. Qed.

Lemma max2_is_Qmax (a b : Q) : Py.max2 a b == Qmax a b.
Proof.
  destruct (max2_cases a b) as [[-> H] | [-> H]].
  - symmetry. apply Q.max_r. lra.
  - symmetry. apply Q.max_l. exact H.
Qed.

Lemma round1_near (x : Q) : - (1 # 20) <= Py.round x 1 - x <= 1 # 20.
Proof.
  pose proof (round_near x 1) as H. apply Qabs_Qle_condition in H.
  assert ((1 # 2) / inject_Z (10 ^ Z.of_nat 1) == 1 # 20) as E by reflexivity.
  rewrite E in H. exact H.
Qed.

Lemma round1_percent (x : Q) : 0 <= x <= 95 -> 0 <= Py.round x 1 <= 95.
Proof.
  intro H. pose proof (round_between 0 950 x 1) as Hr. cbv zeta in Hr.
  assert (inject_Z 0 / inject_Z (10 ^ Z.of_nat 1) == 0) as E0 by reflexivity.
  assert (inject_Z 950 / inject_Z (10 ^ Z.of_nat 1) == 95) as E1
      by reflexivity.
  rewrite E0, E1 in Hr. apply Hr. exact H.
Qed.

(** The weighted average exists as soon as the weighted total is not zero;
    it is the per-class blend divided by that total, and adds up to one. *)
Lemma _weighted_average_spec (p1 p2 : Probs.t) :
  let w key := Probs.get p1 key * 0.6 + Probs.get p2 key * 0.4 in
  let T := w bullish + w bearish + w neutral in
  ~ T == 0 ->
  exists p,
    HybridPredictor._weighted_average p1 p2 = Ok p
    /\ Probs.bullish p == w bullish / T
    /\ Probs.bearish p == w bearish / T
    /\ Probs.neutral p == w neutral / T
    /\ Probs.total p == 1.
Proof.
  intros w T HT. unfold HybridPredictor._weighted_average.
  unfold HybridPredictor.transformer_weight, HybridPredictor.lgbm_weight.
  fold (w bullish) (w bearish) (w neutral).
  assert (Py.sum [w bullish; w bearish; w neutral] == T) as ET
      by (unfold Py.sum, T; simpl; ring).
  assert (~ Py.sum [w bullish; w bearish; w neutral] == 0) as HS
      by (rewrite ET; exact HT).
  rewrite !div_ok by exact HS. cbn [Py.bind].
  eexists. split; [reflexivity|].
  unfold Probs.total. cbn [Probs.bullish Probs.bearish Probs.neutral].
  rewrite ET. repeat split; try reflexivity.
  unfold T. field. exact HT.
Qed.

Lemma weighted_total_pos (a b : Scorer.t) :
  ScorerOutput_ok a -> ScorerOutput_ok b ->
  let w key :=
    Probs.get (Scorer.probabilities a) key * 0.6
    + Probs.get (Scorer.probabilities b) key * 0.4 in
  0 < w bullish + w bearish + w neutral.
Proof.
  intros [_ _ _ _ [Ha _]] [_ _ _ _ [Hb _]] w. unfold w, Probs.get, Probs.pick.
  unfold Probs.total in *. lra.
Qed.

(** What [predict] holds when the two scorers agree. *)
Lemma combine_agree (a b : Scorer.t) :
  ScorerOutput_ok a -> ScorerOutput_ok b ->
  Scorer.direction a = Scorer.direction b ->
  let w key :=
    Probs.get (Scorer.probabilities a) key * 0.6
    + Probs.get (Scorer.probabilities b) key * 0.4 in
  let T := w bullish + w bearish + w neutral in
  exists c,
    HybridPredictor.combine a b = Ok c
    /\ HybridPredictor.direction c = Scorer.direction a
    /\ HybridPredictor.model_agreement c = true
    /\ Probs.bullish (HybridPredictor.combined_probs c) == w bullish / T
    /\ Probs.bearish (HybridPredictor.combined_probs c) == w bearish / T
    /\ Probs.neutral (HybridPredictor.combined_probs c) == w neutral / T
    /\ Probs.total (HybridPredictor.combined_probs c) == 1
    /\ HybridPredictor.confidence c
       = Py.max2 (Scorer.confidence a * 0.6 + Scorer.confidence b * 0.4)
           (Probs.get (HybridPredictor.combined_probs c) (Scorer.direction a)
            * 100).
Proof.
  intros Ha Hb Hdir w T.
  pose proof (weighted_total_pos a b Ha Hb) as HT. cbv beta zeta in HT.
  destruct (_weighted_average_spec (Scorer.probabilities a)
              (Scorer.probabilities b)) as (p & Ep & H1 & H2 & H3 & H4).
  { cbv beta zeta. lra. }
  unfold HybridPredictor.combine.
  apply Direction_eqb_eq in Hdir. rewrite Hdir, Ep. cbn [Py.bind].
  eexists. split; [reflexivity|].
  cbn [HybridPredictor.direction HybridPredictor.model_agreement
       HybridPredictor.combined_probs HybridPredictor.confidence].
  repeat split; first [reflexivity | exact H1 | exact H2 | exact H3 | exact H4].
Qed.

(** Whatever the branch, [predict] reaches its [return] with a confidence
    that is not negative and probabilities that add up to one within the
    tolerance of its inputs. *)
Lemma combine_ok (a b : Scorer.t) :
  ScorerOutput_ok a -> ScorerOutput_ok b ->
  exists c,
    HybridPredictor.combine a b = Ok c
    /\ 0 <= HybridPredictor.confidence c
    /\ within (Probs.total (HybridPredictor.combined_probs c)) 1
         (1 # 1000000).
Proof.
  intros Ha Hb.
  destruct (Direction_eqb (Scorer.direction a) (Scorer.direction b)) eqn:Hd.
  - apply Direction_eqb_eq in Hd.
    destruct (combine_agree a b Ha Hb Hd) as (c & E & _ & _ & _ & _ & _ & Ht & Hc).
    exists c. split; [exact E|]. split.
    + rewrite Hc. destruct Ha as [[Ha0 _] _ _ _ _], Hb as [[Hb0 _] _ _ _ _].
      destruct (max2_cases (Scorer.confidence a * 0.6 + Scorer.confidence b * 0.4)
                  (Probs.get (HybridPredictor.combined_probs c)
                     (Scorer.direction a) * 100)) as [[-> H] | [-> H]]; lra.
    + unfold within. rewrite Ht. lra.
  - unfold HybridPredictor.combine. rewrite Hd.
    destruct Ha as [[Ha0 _] _ _ _ Hta], Hb as [[Hb0 _] _ _ _ Htb].
    repeat match goal with
           | |- context [if ?c then _ else _] => destruct c eqn:?
           end;
      (eexists; split; [reflexivity|]);
      cbn [HybridPredictor.confidence HybridPredictor.combined_probs];
      (split; [lra | first [assumption | unfold within, Probs.total; simpl; lra]]).
Qed.

Lemma report_ok (a b : Scorer.t) (c : HybridPredictor.Combined) :
  0 <= HybridPredictor.confidence c ->
  within (Probs.total (HybridPredictor.combined_probs c)) 1 (1 # 1000000) ->
  let p := HybridPredictor.report a b c in
  0 <= Prediction.confidence p <= 95
  /\ has_decimals 1 (Prediction.confidence p)
  /\ has_decimals 1 (Probs.bullish (Prediction.probabilities p))
  /\ has_decimals 1 (Probs.bearish (Prediction.probabilities p))
  /\ has_decimals 1 (Probs.neutral (Prediction.probabilities p))
  /\ within (Probs.total (Prediction.probabilities p)) 100 0.2.
Proof.
  intros Hc [Hlo Hhi] p. unfold p, HybridPredictor.report.
  cbn [Prediction.confidence Prediction.probabilities Probs.bullish
       Probs.bearish Probs.neutral].
  repeat split; try apply round_has_decimals.
  - apply round1_percent.
    destruct (min2_cases (HybridPredictor.confidence c) 95)
      as [[-> H] | [-> H]]; lra.
  - apply round1_percent.
    destruct (min2_cases (HybridPredictor.confidence c) 95)
      as [[-> H] | [-> H]]; lra.
  - unfold Probs.total in *.
    cbn [Probs.bullish Probs.bearish Probs.neutral].
    pose proof (round1_near (Probs.bullish (HybridPredictor.combined_probs c) * 100)).
    pose proof (round1_near (Probs.bearish (HybridPredictor.combined_probs c) * 100)).
    pose proof (round1_near (Probs.neutral (HybridPredictor.combined_probs c) * 100)).
    lra.
  - unfold Probs.total in *.
    cbn [Probs.bullish Probs.bearish Probs.neutral].
    pose proof (round1_near (Probs.bullish (HybridPredictor.combined_probs c) * 100)).
    pose proof (round1_near (Probs.bearish (HybridPredictor.combined_probs c) * 100)).
    pose proof (round1_near (Probs.neutral (HybridPredictor.combined_probs c) * 100)).
    lra.
Qed.

Lemma fuse_ok (a b : Scorer.t) :
  ScorerOutput_ok a -> ScorerOutput_ok b ->
  exists p, HybridPredictor.fuse a b = Ok p /\ FusedPrediction_ok p.
Proof.
  intros Ha Hb. destruct (combine_ok a b Ha Hb) as (c & E & Hc & Ht).
  exists (HybridPredictor.report a b c). split.
  - unfold HybridPredictor.fuse. now rewrite E.
  - destruct (report_ok a b c Hc Ht) as (H1 & H2 & H3 & H4 & H5 & H6).
    constructor; assumption.
Qed.

(** [predict] is the fusion of what the two scorers return, and both of
    them return a well-formed output. *)
Lemma predict_is_fuse (candles : list Candle.t) (indicators : Indicators.t) :
  exists a b : Scorer.t,
    PatchTSTPredictor.predict candles indicators = Ok a
    /\ LightGBMClassifier.predict candles indicators = Ok b
    /\ ScorerOutput_ok a /\ ScorerOutput_ok b
    /\ HybridPredictor.predict candles indicators = HybridPredictor.fuse a b.
Proof.
  destruct (patchtst_predict_ok candles indicators) as (a & Ea & Ha & _).
  destruct (lightgbm_predict_ok candles indicators) as (b & Eb & Hb & _).
  exists a, b.
  split; [exact Ea|]. split; [exact Eb|].
  split; [exact Ha|]. split; [exact Hb|].
  unfold HybridPredictor.predict. now rewrite Ea, Eb.
Qed.

Lemma predict_ok (candles : list Candle.t) (indicators : Indicators.t) :
  exists p,
    HybridPredictor.predict candles indicators = Ok p
    /\ FusedPrediction_ok p.
Proof.
  destruct (predict_is_fuse candles indicators)
    as (a & b & _ & _ & Ha & Hb & ->).
  now apply fuse_ok.
Qed.

(** C1.  The fusion of two scorer outputs answers with a confidence
    between 0 and 95 that has one decimal, and with percentages of one
    decimal that add up to 100 within 0.2: for every pair of outputs that
    meet the invariant of a scorer output, and in particular for the pair
    the two scorers return on any candles and indicators. *)
Theorem fused_prediction_invariant :
  (forall a b : Scorer.t,
      ScorerOutput_ok a -> ScorerOutput_ok b ->
      exists p, HybridPredictor.fuse a b = Ok p /\ FusedPrediction_ok p)
  /\ (forall (candles : list Candle.t) (indicators : Indicators.t),
         exists p,
           HybridPredictor.predict candles indicators = Ok p
           /\ FusedPrediction_ok p).
Proof.
  split; [exact fuse_ok | exact predict_ok].
Qed.

Lemma fused_prediction_invariant_witness :
  exists p,
    HybridPredictor.fuse (Scorer.mk bullish 80 (Probs.mk 0.8 0 0.2))
      (Scorer.mk bearish 50 (Probs.mk 0.1 0.5 0.4)) = Ok p
    /\ FusedPrediction_ok p.
Proof.
  apply (proj1 fused_prediction_invariant).
  - constructor; unfold in_unit, within, Probs.total; simpl; lra.
  - constructor; unfold in_unit, within, Probs.total; simpl; lra.
Defined.

(** C2.  When the two scorers disagree: if A's confidence is above 70 and
    above B's by more than 20, the fusion takes A's direction and
    probabilities and 0.7 times A's confidence; the same with A and B
    exchanged; in every other case it takes neutral, the probabilities
    0.33, 0.33, 0.34 and the confidence 40.  These are the values [predict]
    holds when it reaches its [return], which then reports them
    ([HybridPredictor.report]: cap at 95, one decimal, percentages).  A
    bullish at 80 against B bearish at 50 is reported as bullish with
    confidence 56.0. *)
Theorem fusion_on_disagreement :
  forall a b : Scorer.t,
    Scorer.direction a <> Scorer.direction b ->
    (70 < Scorer.confidence a
     /\ Scorer.confidence b + 20 < Scorer.confidence a ->
     HybridPredictor.combine a b
     = Ok (HybridPredictor.mkCombined (Scorer.direction a)
             (Scorer.probabilities a) (Scorer.confidence a * 0.7) false))
    /\ (70 < Scorer.confidence b
        /\ Scorer.confidence a + 20 < Scorer.confidence b ->
        HybridPredictor.combine a b
        = Ok (HybridPredictor.mkCombined (Scorer.direction b)
                (Scorer.probabilities b) (Scorer.confidence b * 0.7) false))
    /\ (~ (70 < Scorer.confidence a
           /\ Scorer.confidence b + 20 < Scorer.confidence a) ->
        ~ (70 < Scorer.confidence b
           /\ Scorer.confidence a + 20 < Scorer.confidence b) ->
        HybridPredictor.combine a b
        = Ok (HybridPredictor.mkCombined neutral (Probs.mk 0.33 0.33 0.34)
                40 false))
    /\ (exists c,
           HybridPredictor.combine a b = Ok c
           /\ HybridPredictor.fuse a b = Ok (HybridPredictor.report a b c))
    /\ (Scorer.direction a = bullish -> Scorer.confidence a = 80 ->
        Scorer.direction b = bearish -> Scorer.confidence b = 50 ->
        exists p,
          HybridPredictor.fuse a b = Ok p
          /\ Prediction.direction p = bullish
          /\ Prediction.confidence p == 56.0).
Proof.
  intros a b Hd. apply Direction_eqb_neq in Hd.
  assert (forall x y : Q, (70 < x /\ y + 20 < x)
                          <-> Py.gtb x 70 && Py.gtb x (y + 20) = true) as Ht.
  { intros x y. rewrite andb_true_iff, !gtb_gt. tauto. }
  unfold HybridPredictor.fuse, HybridPredictor.combine. rewrite Hd.
  repeat split.
  - intro H. apply Ht in H. now rewrite H.
  - intro H. pose proof H as H'. apply Ht in H.
    destruct (Py.gtb (Scorer.confidence a) 70
              && Py.gtb (Scorer.confidence a) (Scorer.confidence b + 20))
      eqn:E.
    + apply Ht in E. lra.
    + now rewrite H.
  - intros Ha Hb. rewrite Ht in Ha, Hb.
    apply not_true_is_false in Ha, Hb. now rewrite Ha, Hb.
  - repeat match goal with
           | |- context [if ?c then _ else _] => destruct c
           end; eexists; split; reflexivity.
  - intros Da Ca Db Cb. rewrite Ca, Cb.
    eexists. split; [reflexivity|]. split.
    + exact Da.
    + cbn [Py.bind HybridPredictor.report Prediction.confidence
           HybridPredictor.confidence]. reflexivity.
Qed.

Lemma fusion_on_disagreement_witness :
  HybridPredictor.combine (Scorer.mk bullish 80 (Probs.mk 0.8 0 0.2))
    (Scorer.mk bearish 50 (Probs.mk 0.1 0.5 0.4))
  = Ok (HybridPredictor.mkCombined bullish (Probs.mk 0.8 0 0.2) (80 * 0.7)
          false).
Proof.
  apply (fusion_on_disagreement (Scorer.mk bullish 80 (Probs.mk 0.8 0 0.2))
           (Scorer.mk bearish 50 (Probs.mk 0.1 0.5 0.4))).
  - simpl. discriminate.
  - simpl. split; reflexivity.
Defined.

Lemma agreement_rule_holds (a b : Scorer.t) :
  ScorerOutput_ok a -> ScorerOutput_ok b ->
  Scorer.direction a = Scorer.direction b -> Agreement_rule a b.
Proof.
  intros Ha Hb Hd.
  destruct (combine_agree a b Ha Hb Hd)
    as (c & E & Hdir & Hagree & H1 & H2 & H3 & Ht & Hc).
  cbv beta zeta in H1, H2, H3.
  assert (forall key,
             Probs.get (Scorer.probabilities a) key * 0.6
             + Probs.get (Scorer.probabilities b) key * 0.4
             == blend a b key) as Eb by (intro; unfold blend; ring).
  rewrite !Eb in H1, H2, H3.
  exists c. unfold HybridPredictor.fuse. rewrite E. cbn [Py.bind].
  repeat split; try assumption.
  rewrite Hc, max2_is_Qmax.
  apply Q.max_compat; [ring | reflexivity].
Qed.

(** C3.  When the two scorers agree, the fused prediction has their
    direction and [model_agreement = true]; its probabilities are the
    per-class averages with weights 0.6 and 0.4, divided by their sum so
    that they add up to one; and before the cap its confidence is the
    larger of [0.6 confA + 0.4 confB] and of 100 times the fused
    probability of that direction ([Agreement_rule]).  This holds for
    every pair of outputs that meet the invariant of a scorer output, and
    for the pair the two scorers return on any candles and indicators,
    which is the pair [predict] fuses. *)
Theorem fusion_on_agreement :
  (forall a b : Scorer.t,
      ScorerOutput_ok a -> ScorerOutput_ok b ->
      Scorer.direction a = Scorer.direction b -> Agreement_rule a b)
  /\ (forall (candles : list Candle.t) (indicators : Indicators.t)
             (a b : Scorer.t),
         PatchTSTPredictor.predict candles indicators = Ok a ->
         LightGBMClassifier.predict candles indicators = Ok b ->
         Scorer.direction a = Scorer.direction b ->
         Agreement_rule a b
         /\ HybridPredictor.predict candles indicators
            = HybridPredictor.fuse a b).
Proof.
  split; [exact agreement_rule_holds|].
  intros candles indicators a b Ea Eb Hd.
  destruct (predict_is_fuse candles indicators)
    as (a' & b' & Ea' & Eb' & Ha & Hb & Ef).
  rewrite Ea in Ea'. rewrite Eb in Eb'.
  inversion Ea'; inversion Eb'; subst a' b'.
  split; [now apply agreement_rule_holds | exact Ef].
Qed.

Lemma fusion_on_agreement_witness :
  Agreement_rule (Scorer.mk bullish 60 (Probs.mk 0.6 0.1 0.3))
    (Scorer.mk bullish 50 (Probs.mk 0.5 0.25 0.25)).
Proof.
  apply (proj1 fusion_on_agreement).
  - constructor; unfold in_unit, within, Probs.total; simpl; lra.
  - constructor; unfold in_unit, within, Probs.total; simpl; lra.
  - reflexivity.
Defined.

(** ** The whole pipeline *)



(** ** Warnings *)

(** The warnings are the four notices in the order of the source, each
    under its own test. *)
Lemma generate_warnings_in_order (p : Prediction.t) (t : Indicators.t) :
  PredictionRoute.generate_warnings p t
  = (if Py.ltb (Prediction.confidence p) 50
     then [PredictionRoute.low_confidence_notice] else [])
    ++ (if negb (Prediction.model_agreement p)
        then [PredictionRoute.disagreement_notice] else [])
    ++ match Indicators.rsi t with
       | Some rsi =>
         if Py.truthy rsi && (Py.gtb rsi 70 || Py.ltb rsi 30)
         then [PredictionRoute.rsi_notice
                 (if Py.gtb rsi 70 then "overbought" else "oversold")]
         else []
       | None => []
       end
    ++ match Indicators.volume t with
       | Some vol =>
         if Trend_eqb (Volume.trend vol) decreasing
            && negb (Direction_eqb (Prediction.direction p) neutral)
         then [PredictionRoute.volume_notice] else []
       | None => []
       end.
Proof.
  unfold PredictionRoute.generate_warnings.
  destruct (Py.ltb (Prediction.confidence p) 50),
    (negb (Prediction.model_agreement p)),
    (Indicators.rsi t) as [rsi|], (Indicators.volume t) as [vol|];
    repeat match goal with
           | |- context [if ?c then _ else _] => destruct c
           end; reflexivity.
Qed.

(** An RSI of zero is read as a missing RSI: no notice about it is issued,
    although zero is below 30. *)
Lemma no_rsi_notice_at_zero (p : Prediction.t) (t : Indicators.t) (rsi : Q)
  (condition : string) :
  Indicators.rsi t = Some rsi -> rsi == 0 ->
  ~ In (PredictionRoute.rsi_notice condition)
      (PredictionRoute.generate_warnings p t).
Proof.
  intros Hr Hz. rewrite generate_warnings_in_order, Hr.
  apply truthy_false in Hz. rewrite Hz. cbn [andb].
  intro Hin. repeat (apply in_app_or in Hin; destruct Hin as [Hin | Hin]);
    repeat match type of Hin with
           | In _ (if ?c then _ else _) => destruct c
           | In _ (match ?v with Some _ => _ | None => _ end) => destruct v
           end;
    simpl in Hin; repeat (destruct Hin as [Hin | Hin]); try contradiction;
    discriminate Hin.
Qed.

(** C8.  The warnings are expected to carry an oversold notice whenever
    the RSI is below 30.  On fifteen candles whose closes fall steadily
    the indicator engine returns an RSI of 0, the strongest oversold
    reading there is, and the warnings computed from these indicators and
    from the prediction made on them are empty: the test [if rsi and ...]
    of [generate_warnings] takes the value 0 for a missing one. *)
Theorem oversold_notice_missing_at_rsi_zero :
  exists (ind : Indicators.t) (p : Prediction.t),
    IndicatorCalculator.calculate_all falling_candles = Ok ind
    /\ HybridPredictor.predict falling_candles ind = Ok p
    /\ (exists rsi,
           Indicators.rsi ind = Some rsi /\ rsi == 0 /\ rsi < 30)
    /\ PredictionRoute.generate_warnings p ind = []
    /\ ~ In (PredictionRoute.rsi_notice "oversold")
           (PredictionRoute.generate_warnings p ind).
Proof.
  eexists. eexists. split; [vm_compute; reflexivity|].
  split; [vm_compute; reflexivity|].
  split; [|split].
  - eexists. split; [reflexivity|]. split; [reflexivity | reflexivity].
  - reflexivity.
  - intros [].
Qed.

(** ** The examples of the design document *)

Example volume_trend_increasing :
  IndicatorCalculator.analyze_volume (repeat 10 15 ++ repeat 20 5)
  = Ok (Volume.mk increasing 1.60 (Some 20.00) (Some 12.50)).
Proof. reflexivity. Qed.

Example ema_of_short_input (c1 c2 c3 : Q) :
  IndicatorCalculator._ema [c1; c2; c3] 9 = Ok c3.
Proof. reflexivity. Qed.

Example both_bullish_fuse_bullish :
  exists p,
    HybridPredictor.fuse (Scorer.mk bullish 60 (Probs.mk 0.6 0.1 0.3))
      (Scorer.mk bullish 50 (Probs.mk 0.5 0.25 0.25)) = Ok p
    /\ Prediction.direction p = bullish
    /\ Prediction.model_agreement p = true
    /\ Prediction.confidence p == 56.
Proof. eexists. split; [reflexivity|]. repeat split. Qed.

Example risk_levels (d : Direction) (pr : Probs.t) (t : Indicators.t) :
  PredictionRoute.assess_risk (Prediction.mk d 75 pr true d d) t = "low"%string
  /\ PredictionRoute.assess_risk (Prediction.mk d 55 pr true d d) t
     = "medium"%string
  /\ PredictionRoute.assess_risk (Prediction.mk d 30 pr true d d) t
     = "high"%string.
Proof. repeat split. Qed.

(** * Further properties of the code *)

(** ** The rounding is monotone *)

Lemma ltb_comp (x x' y y' : Q) :
  x == x' -> y == y' -> Py.ltb x y = Py.ltb x' y'.
Proof.
  intros Hx Hy. unfold Py.ltb. f_equal. now apply Qleb_comp.
Qed.

Lemma round_half_even_comp (x y : Q) :
  x == y -> Py.round_half_even x = Py.round_half_even y.
Proof.
  intro H. unfold Py.round_half_even.
  rewrite (Qfloor_comp x y H).
  rewrite (ltb_comp (x - inject_Z (Qfloor y)) (y - inject_Z (Qfloor y))
             (1 # 2) (1 # 2)) by (rewrite ?H; reflexivity).
  rewrite (ltb_comp (1 # 2) (1 # 2) (x - inject_Z (Qfloor y))
             (y - inject_Z (Qfloor y))) by (rewrite ?H; reflexivity).
  reflexivity.
Qed.

Lemma round_comp (x y : Q) (n : nat) : x == y -> Py.round x n = Py.round y n.
Proof.
  intro H. unfold Py.round.
  rewrite (round_half_even_comp (x * inject_Z (10 ^ Z.of_nat n))
             (y * inject_Z (10 ^ Z.of_nat n))) by (now rewrite H).
  reflexivity.
Qed.

Lemma round_half_even_monotone (x y : Q) :
  x <= y -> (Py.round_half_even x <= Py.round_half_even y)%Z.
Proof.
  intro Hxy.
  pose proof (Qfloor_resp_le x y Hxy) as Hf.
  pose proof (Qfloor_le x) as Hx1. pose proof (Qlt_floor x) as Hx2.
  pose proof (Qfloor_le y) as Hy1. pose proof (Qlt_floor y) as Hy2.
  rewrite inject_Z_plus in Hx2, Hy2. change (inject_Z 1) with 1 in *.
  destruct (Z.eq_dec (Qfloor x) (Qfloor y)) as [E | NE].
  - unfold Py.round_half_even. rewrite E in *.
    destruct (Py.ltb (x - inject_Z (Qfloor y)) (1 # 2)) eqn:A1,
             (Py.ltb (y - inject_Z (Qfloor y)) (1 # 2)) eqn:B1,
             (Py.ltb (1 # 2) (x - inject_Z (Qfloor y))) eqn:A2,
             (Py.ltb (1 # 2) (y - inject_Z (Qfloor y))) eqn:B2;
      tests_to_prop; try lia; try lra;
      destruct (Z.even (Qfloor y)); lia.
  - assert (Qfloor x + 1 <= Qfloor y)%Z as Hlt by lia.
    destruct (round_half_even_cases x) as [[-> _] | [-> _]],
             (round_half_even_cases y) as [[-> _] | [-> _]]; lia.
Qed.

Lemma round_monotone (x y : Q) (n : nat) :
  x <= y -> Py.round x n <= Py.round y n.
Proof.
  intro H. unfold Py.round. pose proof (scale_pos n) as Hs.
  set (s := inject_Z (10 ^ Z.of_nat n)) in *.
  assert (x * s <= y * s) as Hm by (apply Qmult_le_compat_r; lra).
  apply round_half_even_monotone in Hm. rewrite Zle_Qle in Hm.
  apply Qmult_le_compat_r; [exact Hm|].
  apply Qlt_le_weak, Qinv_lt_0_compat, Hs.
Qed.

Lemma round_zero (n : nat) : Py.round 0 n == 0.
Proof.
  unfold Py.round.
  rewrite (round_half_even_comp (0 * inject_Z (10 ^ Z.of_nat n)) 0) by ring.
  pose proof (scale_pos n). change (Py.round_half_even 0) with 0%Z.
  change (inject_Z 0) with 0. field. lra.
Qed.

(** A rounded value keeps the sign of the value it comes from. *)
Lemma round_sign (x : Q) (n : nat) :
  (0 < Py.round x n -> 0 < x) /\ (Py.round x n < 0 -> x < 0).
Proof.
  pose proof (round_zero n) as Hz. split; intro H.
  - destruct (Qlt_le_dec 0 x) as [|Hle]; [assumption|].
    pose proof (round_monotone x 0 n Hle). lra.
  - destruct (Qlt_le_dec x 0) as [|Hle]; [assumption|].
    pose proof (round_monotone 0 x n Hle). lra.
Qed.

(** ** Sums and the last item of a list *)

Lemma fold_left_Qplus_acc (l : list Q) (acc : Q) :
  fold_left Qplus l acc == acc + Py.sum l.
Proof.
  unfold Py.sum. revert acc.
  induction l as [|x l IH]; intro acc; simpl.
  - ring.
  - rewrite (IH (acc + x)), (IH (0 + x)). ring.
Qed.

Lemma sum_cons (x : Q) (l : list Q) : Py.sum (x :: l) == x + Py.sum l.
Proof.
  unfold Py.sum at 1. simpl. rewrite fold_left_Qplus_acc. ring.
Qed.

Lemma getitem_last_is_last {A : Type} (l : list A) (d : A) :
  l <> [] -> Py.getitem l (-1) = Ok (List.last l d).
Proof.
  intro Hne. unfold Py.getitem. cbn [Z.ltb Z.compare].
  assert (1 <= Py.len l)%nat as Hlen
      by (destruct l; [congruence | unfold Py.len; simpl; lia]).
  replace (-1 + Z.of_nat (Py.len l))%Z with (Z.of_nat (Py.len l - 1)) by lia.
  destruct (Z.of_nat (Py.len l - 1) <? 0)%Z eqn:E;
    [apply Z.ltb_lt in E; lia|].
  rewrite Nat2Z.id. unfold Py.len.
  clear E Hlen. induction l as [|x [|y l] IH]; [congruence | reflexivity|].
  change (List.last (x :: y :: l) d) with (List.last (y :: l) d).
  rewrite <- IH by discriminate. simpl. now rewrite Nat.sub_0_r.
Qed.

(** ** The exponential moving average *)

(** X1.  With fewer points than the period the moving average is the last
    point, unchanged, and 0 when there is no point at all. *)
Theorem ema_of_insufficient_data :
  forall (data : list Q) (period : nat),
    (Py.len data < period)%nat ->
    IndicatorCalculator._ema data period = Ok (List.last data 0).
Proof.
  intros data period H. unfold IndicatorCalculator._ema.
  apply Nat.ltb_lt in H. rewrite H.
  destruct data as [|x data]; [reflexivity|].
  now apply getitem_last_is_last.
Qed.

Lemma ema_of_insufficient_data_witness :
  IndicatorCalculator._ema [101; 99.5; 100.25] 9 = Ok 100.25.
Proof.
  apply (ema_of_insufficient_data [101; 99.5; 100.25] 9%nat).
  unfold Py.len. simpl. lia.
Defined.

Lemma round_pos_ge_unit (x : Q) (n : nat) :
  0 < Py.round x n -> 1 / inject_Z (10 ^ Z.of_nat n) <= Py.round x n.
Proof.
  unfold Py.round. pose proof (scale_pos n) as Hs.
  set (s := inject_Z (10 ^ Z.of_nat n)) in *.
  set (k := Py.round_half_even (x * s)).
  intro H. assert (0 < inject_Z k) as Hk.
  { destruct (Qlt_le_dec 0 (inject_Z k)) as [|Hle]; [assumption|].
    exfalso. assert (inject_Z k / s <= 0); [|lra].
    apply Qle_shift_div_r; lra. }
  change 0 with (inject_Z 0) in Hk. rewrite <- Zlt_Qlt in Hk.
  assert (1 <= k)%Z as Hk1 by lia. rewrite Zle_Qle in Hk1.
  change (inject_Z 1) with 1 in Hk1.
  apply Qmult_le_compat_r; [exact Hk1|].
  apply Qlt_le_weak, Qinv_lt_0_compat, Hs.
Qed.

Lemma round_neg_le_unit (x : Q) (n : nat) :
  Py.round x n < 0 -> Py.round x n <= - (1 / inject_Z (10 ^ Z.of_nat n)).
Proof.
  unfold Py.round. pose proof (scale_pos n) as Hs.
  set (s := inject_Z (10 ^ Z.of_nat n)) in *.
  set (k := Py.round_half_even (x * s)).
  intro H. assert (inject_Z k < 0) as Hk.
  { destruct (Qlt_le_dec (inject_Z k) 0) as [|Hle]; [assumption|].
    exfalso. assert (0 <= inject_Z k / s); [|lra].
    apply Qle_shift_div_l; lra. }
  change 0 with (inject_Z 0) in Hk. rewrite <- Zlt_Qlt in Hk.
  assert (k <= -1)%Z as Hk1 by lia. rewrite Zle_Qle in Hk1.
  change (inject_Z (-1)) with (-(1)) in Hk1.
  assert (- (1 / s) == (-(1)) / s) as -> by (field; lra).
  apply Qmult_le_compat_r; [exact Hk1|].
  apply Qlt_le_weak, Qinv_lt_0_compat, Hs.
Qed.

(** X3.  The three MACD values never disagree in sign: a positive
    histogram comes with a positive MACD line and a positive signal line,
    a negative histogram with negative ones. *)
Theorem macd_signs_agree :
  forall closes : list Q,
  exists m : Macd.t,
    IndicatorCalculator.calculate_macd closes 12 26 9 = Ok m
    /\ (0 < Macd.histogram m -> 0 < Macd.macd m /\ 0 < Macd.signal m)
    /\ (Macd.histogram m < 0 -> Macd.macd m < 0 /\ Macd.signal m < 0).
Proof.
  intro closes. destruct (calculate_macd_returns closes) as [m H].
  exists m. split; [exact H|].
  unfold IndicatorCalculator.calculate_macd in H.
  destruct (Py.len closes <? 26 + 9)%nat.
  { inversion H; subst. simpl. split; intro; lra. }
  destruct (IndicatorCalculator._ema closes 12) as [ema_fast|];
    [|discriminate].
  destruct (IndicatorCalculator._ema closes 26) as [ema_slow|];
    [|discriminate].
  cbn [Py.bind] in H. inversion H; subst; clear H.
  cbn [Macd.histogram Macd.macd Macd.signal].
  set (line := ema_fast - ema_slow).
  assert ((1 # 2) / inject_Z (10 ^ Z.of_nat 4) == 1 # 20000) as Eh
      by reflexivity.
  assert (1 / inject_Z (10 ^ Z.of_nat 4) == 1 # 10000) as Eu by reflexivity.
  pose proof (round_near (line - line * 0.9) 4) as Hn.
  apply Qabs_Qle_condition in Hn. rewrite Eh in Hn.
  split; intro Hh.
  - pose proof (round_pos_ge_unit _ _ Hh) as Hu. rewrite Eu in Hu.
    assert (0.0005 <= line) as Hl by lra.
    pose proof (round_monotone 0.0005 line 4 Hl) as H1.
    pose proof (round_monotone 0.00045 (line * 0.9) 4 ltac:(lra)) as H2.
    assert (Py.round 0.0005 4 == 0.0005) as E1 by reflexivity.
    assert (Py.round 0.00045 4 == 0.0004) as E2 by reflexivity.
    split; lra.
  - pose proof (round_neg_le_unit _ _ Hh) as Hu. rewrite Eu in Hu.
    assert (line <= - 0.0005) as Hl by lra.
    pose proof (round_monotone line (- 0.0005) 4 Hl) as H1.
    pose proof (round_monotone (line * 0.9) (- 0.00045) 4 ltac:(lra)) as H2.
    assert (Py.round (- 0.0005) 4 == - 0.0005) as E1 by reflexivity.
    assert (Py.round (- 0.00045) 4 == - 0.0004) as E2 by reflexivity.
    split; lra.
Qed.

Lemma macd_signs_agree_witness :
  exists m : Macd.t,
    IndicatorCalculator.calculate_macd
      (map (fun n => inject_Z (Z.of_nat n)) (seq 1 40)) 12 26 9 = Ok m
    /\ 0 < Macd.macd m /\ 0 < Macd.signal m.
Proof.
  destruct (macd_signs_agree
              (map (fun n => inject_Z (Z.of_nat n)) (seq 1 40)))
    as (m & E & Hpos & _).
  exists m. split; [exact E|]. apply Hpos.
  vm_compute in E. injection E as <-. reflexivity.
Defined.

(** X5.  The EMA and SMA dicts carry exactly the periods the closes are
    long enough for, in ascending order; a period that is too long is left
    out, not filled with a zero. *)
Theorem moving_average_keys :
  forall closes : list Q,
    (exists emas,
        IndicatorCalculator.calculate_emas closes = Ok emas
        /\ map fst emas
           = map Z.of_nat
               (filter (fun period => (period <=? Py.len closes)%nat)
                  [9; 20; 50; 200]%nat))
    /\ (exists smas,
           IndicatorCalculator.calculate_smas closes = Ok smas
           /\ map fst smas
              = map Z.of_nat
                  (filter (fun period => (period <=? Py.len closes)%nat)
                     [20; 50; 200]%nat)).
Proof.
  intro closes. split.
  - unfold IndicatorCalculator.calculate_emas.
    cbn [fold_left Py.bind filter].
    repeat
      match goal with
      | |- context [(?p <=? Py.len closes)%nat] =>
        destruct (p <=? Py.len closes)%nat;
        [destruct (_ema_returns closes p) as [? ->]; [lia|] |];
        cbn [Py.bind]
      end;
      (eexists; split; [reflexivity|]); reflexivity.
  - unfold IndicatorCalculator.calculate_smas.
    cbn [fold_left Py.bind filter].
    repeat
      match goal with
      | |- context [(?p <=? Py.len closes)%nat] =>
        let E := fresh "E" in
        destruct (p <=? Py.len closes)%nat eqn:E;
        [apply Nat.leb_le in E;
         rewrite (np_mean_returns (Py.last_n p closes))
           by (apply nonempty_of_len; rewrite len_last_n; lia) |];
        cbn [Py.bind]
      end;
      (eexists; split; [reflexivity|]); reflexivity.
Qed.

(** ** The RSI window *)

Lemma last_n_app_exact {A : Type} (older window : list A) (n : nat) :
  Py.len window = n -> Py.last_n n (older ++ window) = window.
Proof.
  intro H. unfold Py.last_n, Py.len in *. rewrite length_app.
  replace (List.length older + List.length window - n)%nat
    with (List.length older + 0)%nat by lia.
  rewrite skipn_app, Nat.add_0_r, skipn_all.
  replace (List.length older - List.length older)%nat with 0%nat by lia.
  reflexivity.
Qed.

(** X6.  The RSI reads the last [period + 1] closes only: closes older
    than that window never change it. *)
Theorem rsi_reads_last_window_only :
  forall (older window : list Q) (period : nat),
    Py.len window = (period + 1)%nat ->
    IndicatorCalculator.calculate_rsi (older ++ window) period
    = IndicatorCalculator.calculate_rsi window period.
Proof.
  intros older window period H.
  unfold IndicatorCalculator.calculate_rsi.
  rewrite (last_n_app_exact older window _ H).
  pose proof (last_n_app_exact [] window _ H) as Hw. simpl in Hw.
  rewrite Hw.
  assert ((Py.len (older ++ window) <? period + 1)%nat = false) as ->.
  { apply Nat.ltb_ge. unfold Py.len in *. rewrite length_app. lia. }
  assert ((Py.len window <? period + 1)%nat = false) as ->.
  { apply Nat.ltb_ge. lia. }
  reflexivity.
Qed.

Lemma rsi_reads_last_window_only_witness :
  IndicatorCalculator.calculate_rsi ([500; 1; 250] ++ [10; 11; 9]) 2
  = IndicatorCalculator.calculate_rsi [10; 11; 9] 2.
Proof.
  apply (rsi_reads_last_window_only [500; 1; 250] [10; 11; 9] 2%nat).
  reflexivity.
Defined.

Lemma sum_of_zeros (l : list Q) :
  Forall (fun x => x == 0) l -> Py.sum l == 0.
Proof.
  induction 1 as [|x l Hx _ IH].
  - reflexivity.
  - rewrite sum_cons, Hx, IH. ring.
Qed.

Lemma np_mean_of_zeros (l : list Q) :
  l <> [] -> Forall (fun x => x == 0) l ->
  exists m, Py.np_mean l = Ok m /\ m == 0.
Proof.
  intros Hne Hz. rewrite np_mean_returns by assumption.
  eexists. split; [reflexivity|].
  rewrite (sum_of_zeros l Hz). pose proof (len_pos _ l Hne). field. lra.
Qed.

(** X7.  When no close of the window is below the one before it, a flat
    window included, the RSI is [100.0]. *)
Theorem rsi_without_losses_is_100 :
  forall (closes : list Q) (period : nat),
    (1 <= period)%nat -> (period + 1 <= Py.len closes)%nat ->
    Forall (fun change => 0 <= change)
      (Py.np_diff (Py.last_n (period + 1) closes)) ->
    IndicatorCalculator.calculate_rsi closes period = Ok 100.0.
Proof.
  intros closes period Hp Hlen Hup.
  unfold IndicatorCalculator.calculate_rsi.
  assert ((Py.len closes <? period + 1)%nat = false) as ->
      by (apply Nat.ltb_ge; lia).
  set (changes := Py.np_diff (Py.last_n (period + 1) closes)) in *.
  assert (changes <> []) as Hne.
  { apply nonempty_of_len. unfold changes.
    rewrite len_np_diff, len_last_n by assumption. lia. }
  destruct (np_mean_nonneg
              (map (fun c => if Py.gtb c 0 then c else 0) changes))
    as (g & -> & _).
  { intro E. apply map_eq_nil in E. contradiction. }
  { apply Forall_map, Forall_forall. intros c _.
    destruct (Py.gtb c 0) eqn:E; tests_to_prop; lra. }
  destruct (np_mean_of_zeros
              (map (fun c => if Py.ltb c 0 then - c else 0) changes))
    as (l & -> & Hl).
  { intro E. apply map_eq_nil in E. contradiction. }
  { apply Forall_map. eapply Forall_impl; [|exact Hup].
    intros c Hc. simpl in Hc.
    destruct (Py.ltb c 0) eqn:E; tests_to_prop; lra. }
  cbn [Py.bind]. apply eqb_eq in Hl. now rewrite Hl.
Qed.

Lemma rsi_without_losses_is_100_witness :
  IndicatorCalculator.calculate_rsi [7; 7; 8; 8; 9] 3 = Ok 100.0.
Proof.
  apply (rsi_without_losses_is_100 [7; 7; 8; 8; 9] 3%nat).
  - lia.
  - unfold Py.len. simpl. lia.
  - repeat constructor; simpl; lra.
Defined.



(** ** The volume trend *)




(** ** The caps of the two scorers *)

Lemma min2_below (x cap : Q) : x <= cap -> Py.min2 x cap = x.
Proof.
  intro H. unfold Py.min2. apply ltb_ge in H. now rewrite H.
Qed.

Lemma div_le_of_mul (num den c : Q) :
  0 < den -> num <= c * den -> num / den <= c.
Proof. intros Hd H. apply Qle_shift_div_r; assumption. Qed.

Lemma div_ge_of_mul (num den c : Q) :
  0 < den -> c * den <= num -> c <= num / den.
Proof. intros Hd H. apply Qle_shift_div_l; assumption. Qed.

(** The three shares of normalised scores, with the bounds that the sum of
    the scores gives them. *)
Lemma normalised_shares (base limit lo bull bear : Z) (bp brp np : Q) :
  (0 < base)%Z -> (lo <= bull + bear)%Z ->
  Normalised base limit bull bear bp brp np ->
  let T := inject_Z bull + inject_Z bear + inject_Z base in
  bp == inject_Z bull / T /\ brp == inject_Z bear / T
  /\ np == inject_Z base / T
  /\ 0 <= inject_Z bull /\ 0 <= inject_Z bear
  /\ inject_Z lo + inject_Z base <= T <= inject_Z limit + inject_Z base
  /\ 0 < T.
Proof.
  intros Hbase Hlo (Hb & Hr & Hsum & -> & -> & ->) T.
  rewrite Zle_Qle in Hb, Hr. rewrite Zlt_Qlt in Hbase.
  rewrite Zle_Qle, inject_Z_plus in Hlo, Hsum.
  change (inject_Z 0) with 0 in *.
  assert (0 < T) as HT by (unfold T; lra).
  rewrite !inject_Z_plus. fold T.
  split; [reflexivity|]. split; [reflexivity|].
  split; [unfold T in *; field; lra|].
  split; [exact Hb|]. split; [exact Hr|].
  split; [unfold T; split; lra | exact HT].
Qed.

(** X10.  With at least five candles scorer A's confidence is 100 times
    the probability it reports for its own direction: the cap at 90 never
    applies.  A bullish or bearish call has a confidence above 40 and at
    most 900/11 (81.8...); a neutral one lies between 200/11 (18.1...)
    and 100/3 (33.3...). *)
Theorem patchtst_confidence_is_uncapped :
  forall (candles : list Candle.t) (indicators : Indicators.t),
    (5 <= Py.len candles)%nat ->
    exists o : Scorer.t,
      PatchTSTPredictor.predict candles indicators = Ok o
      /\ Scorer.confidence o
         == Probs.get (Scorer.probabilities o) (Scorer.direction o) * 100
      /\ (Scorer.direction o <> neutral ->
          40 < Scorer.confidence o <= 900 # 11)
      /\ (Scorer.direction o = neutral ->
          200 # 11 <= Scorer.confidence o <= 100 # 3).
Proof.
  intros candles indicators Hlen.
  destruct (pattern_scores_ok candles indicators Hlen) as (s & Es & Hn & H40).
  destruct (patchtst_predict_long candles indicators Hlen)
    as (s' & Es' & Ep & _).
  rewrite Es in Es'. injection Es' as <-.
  exists (PatchTSTPredictor.decide s). split; [exact Ep|].
  destruct (patchtst_decide_ok s Hn) as [Hp _].
  destruct (normalised_shares 20 90 40 _ _ _ _ _ ltac:(lia) H40 Hn)
    as (Ebp & Ebrp & Enp & Hb & Hr & [HT1 HT2] & HT).
  cbv zeta in *.
  set (T := inject_Z (PatchTSTPredictor.bullish_score s)
            + inject_Z (PatchTSTPredictor.bearish_score s) + inject_Z 20)
    in *.
  change (inject_Z 40) with 40 in *. change (inject_Z 20) with 20 in *.
  change (inject_Z 90) with 90 in *.
  assert (PatchTSTPredictor.bullish_prob s <= 9 # 11) as Hbp.
  { rewrite Ebp. apply div_le_of_mul; [assumption | unfold T in *; lra]. }
  assert (PatchTSTPredictor.bearish_prob s <= 9 # 11) as Hbrp.
  { rewrite Ebrp. apply div_le_of_mul; [assumption | unfold T in *; lra]. }
  assert (2 # 11 <= PatchTSTPredictor.neutral_prob s <= 1 # 3) as Hnp.
  { rewrite Enp. split.
    - apply div_ge_of_mul; [assumption | lra].
    - apply div_le_of_mul; [assumption | lra]. }
  rewrite Hp. unfold PatchTSTPredictor.decide.
  destruct (Py.gtb (PatchTSTPredictor.bullish_prob s)
              (PatchTSTPredictor.bearish_prob s)
            && Py.gtb (PatchTSTPredictor.bullish_prob s) 0.4) eqn:E1;
    [|destruct (Py.gtb (PatchTSTPredictor.bearish_prob s)
                  (PatchTSTPredictor.bullish_prob s)
                && Py.gtb (PatchTSTPredictor.bearish_prob s) 0.4) eqn:E2];
    cbn [Scorer.confidence Scorer.direction Probs.get Probs.pick
         Probs.bullish Probs.bearish Probs.neutral];
    rewrite min2_below by lra; tests_to_prop;
    (split; [reflexivity|]);
    (split; intro Hd; [try congruence; lra | try discriminate; lra]).
Qed.

Lemma patchtst_confidence_is_uncapped_witness :
  exists o : Scorer.t,
    PatchTSTPredictor.predict (repeat (Candle.mk 1 10 12 9 11 100) 5)
      Indicators.empty = Ok o
    /\ Scorer.confidence o
       == Probs.get (Scorer.probabilities o) (Scorer.direction o) * 100.
Proof.
  destruct (patchtst_confidence_is_uncapped
              (repeat (Candle.mk 1 10 12 9 11 100) 5) Indicators.empty)
    as (o & E & H & _).
  - unfold Py.len. simpl. lia.
  - exists o. split; assumption.
Defined.

Lemma share_order (x y den : Q) : 0 < den -> y / den < x / den -> y < x.
Proof.
  intros Hd H.
  assert (x == x / den * den) as -> by (field; lra).
  assert (y == y / den * den) as -> by (field; lra).
  apply Qmult_lt_compat_r; assumption.
Qed.

(** X11.  With at least five candles scorer B is neutral with confidence
    50, or bullish or bearish with a confidence that is 100 times the
    probability it reports for that direction and lies between 40 and 75:
    the cap at 85 never applies. *)
Theorem lightgbm_confidence_is_uncapped :
  forall (candles : list Candle.t) (indicators : Indicators.t),
    (5 <= Py.len candles)%nat ->
    exists o : Scorer.t,
      LightGBMClassifier.predict candles indicators = Ok o
      /\ (Scorer.direction o = neutral -> Scorer.confidence o = 50)
      /\ (Scorer.direction o <> neutral ->
          Scorer.confidence o
          == Probs.get (Scorer.probabilities o) (Scorer.direction o) * 100
          /\ 40 <= Scorer.confidence o <= 75).
Proof.
  intros candles indicators Hlen.
  destruct (lightgbm_predict_long candles indicators Hlen)
    as (f & s & _ & _ & Ep & Hn).
  exists (LightGBMClassifier.decide s). split; [exact Ep|].
  destruct (lightgbm_decide_ok s Hn) as [Hp _].
  assert (0 <= LightGBMClassifier.bullish_signals s
               + LightGBMClassifier.bearish_signals s)%Z as H0
      by (destruct Hn as (? & ? & _); lia).
  destruct (normalised_shares 3 9 0 _ _ _ _ _ ltac:(lia) H0 Hn)
    as (Ebp & Ebrp & _ & Hb & Hr & [_ HT2] & HT).
  cbv zeta in *.
  set (B := inject_Z (LightGBMClassifier.bullish_signals s)) in *.
  set (R := inject_Z (LightGBMClassifier.bearish_signals s)) in *.
  change (inject_Z 3) with 3 in *. change (inject_Z 9) with 9 in *.
  assert (forall x y : Z, (y < x)%Z -> inject_Z y + 1 <= inject_Z x) as Hstep.
  { intros x y Hxy. assert (y + 1 <= x)%Z as H by lia.
    rewrite Zle_Qle, inject_Z_plus in H. exact H. }
  rewrite Hp. unfold LightGBMClassifier.decide.
  destruct (Py.gtb (LightGBMClassifier.bullish_prob s)
              (LightGBMClassifier.bearish_prob s)
            && (4 <=? LightGBMClassifier.bullish_signals s)%Z) eqn:E1;
    [|destruct (Py.gtb (LightGBMClassifier.bearish_prob s)
                  (LightGBMClassifier.bullish_prob s)
                && (4 <=? LightGBMClassifier.bearish_signals s)%Z) eqn:E2];
    cbn [Scorer.confidence Scorer.direction Probs.get Probs.pick
         Probs.bullish Probs.bearish Probs.neutral].
  - apply andb_true_iff in E1. destruct E1 as [Hgt H4].
    apply gtb_gt in Hgt. apply Z.leb_le in H4.
    rewrite Ebp, Ebrp in Hgt. apply share_order in Hgt; [|exact HT].
    unfold B, R in Hgt. rewrite <- Zlt_Qlt in Hgt.
    apply Hstep in Hgt. fold B R in Hgt.
    rewrite Zle_Qle in H4. fold B in H4. change (inject_Z 4) with 4 in H4.
    assert (2 # 5 <= LightGBMClassifier.bullish_prob s <= 3 # 4) as Hbp.
    { rewrite Ebp. split.
      - apply div_ge_of_mul; [assumption | lra].
      - apply div_le_of_mul; [assumption | lra]. }
    rewrite min2_below by lra.
    split; [discriminate|]. intros _. split; [reflexivity | lra].
  - apply andb_true_iff in E2. destruct E2 as [Hgt H4].
    apply gtb_gt in Hgt. apply Z.leb_le in H4.
    rewrite Ebp, Ebrp in Hgt. apply share_order in Hgt; [|exact HT].
    unfold B, R in Hgt. rewrite <- Zlt_Qlt in Hgt.
    apply Hstep in Hgt. fold B R in Hgt.
    rewrite Zle_Qle in H4. fold R in H4. change (inject_Z 4) with 4 in H4.
    assert (2 # 5 <= LightGBMClassifier.bearish_prob s <= 3 # 4) as Hbp.
    { rewrite Ebrp. split.
      - apply div_ge_of_mul; [assumption | lra].
      - apply div_le_of_mul; [assumption | lra]. }
    rewrite min2_below by lra.
    split; [discriminate|]. intros _. split; [reflexivity | lra].
  - split; [reflexivity | congruence].
Qed.

Lemma lightgbm_confidence_is_uncapped_witness :
  exists o : Scorer.t,
    LightGBMClassifier.predict (repeat (Candle.mk 1 10 12 9 11 100) 5)
      Indicators.empty = Ok o
    /\ (Scorer.direction o = neutral -> Scorer.confidence o = 50).
Proof.
  destruct (lightgbm_confidence_is_uncapped
              (repeat (Candle.mk 1 10 12 9 11 100) 5) Indicators.empty)
    as (o & E & H & _).
  - unfold Py.len. simpl. lia.
  - exists o. split; assumption.
Defined.

(** ** How high the fused confidence can get *)

Lemma min2_le_left (x cap : Q) : Py.min2 x cap <= x.
Proof. destruct (min2_cases x cap) as [[-> H] | [-> H]]; lra. Qed.

Lemma patchtst_output_bounds (candles : list Candle.t) (ind : Indicators.t) :
  exists o : Scorer.t,
    PatchTSTPredictor.predict candles ind = Ok o
    /\ ScorerOutput_ok o
    /\ Probs.total (Scorer.probabilities o) == 1
    /\ Scorer.confidence o <= 900 # 11
    /\ Probs.bullish (Scorer.probabilities o) <= 9 # 11
    /\ Probs.bearish (Scorer.probabilities o) <= 9 # 11
    /\ Probs.neutral (Scorer.probabilities o) <= 34 # 100.
Proof.
  destruct (patchtst_predict_ok candles ind) as (o & Eo & Hok & Htot).
  exists o. split; [exact Eo|]. split; [exact Hok|]. split; [exact Htot|].
  destruct (Nat.lt_ge_cases (Py.len candles) 5) as [Hlen | Hlen].
  - unfold PatchTSTPredictor.predict, PatchTSTPredictor._analyze_patterns
      in Eo.
    apply Nat.ltb_lt in Hlen. rewrite Hlen in Eo. injection Eo as <-.
    simpl. repeat split; lra.
  - destruct (pattern_scores_ok candles ind Hlen) as (s & Es & Hn & H40).
    destruct (patchtst_predict_long candles ind Hlen) as (s' & Es' & Ep & _).
    rewrite Es in Es'. injection Es' as <-.
    rewrite Ep in Eo. injection Eo as <-.
    destruct (patchtst_decide_ok s Hn) as [Hp _].
    destruct (normalised_shares 20 90 40 _ _ _ _ _ ltac:(lia) H40 Hn)
      as (Ebp & Ebrp & Enp & Hb & Hr & [HT1 HT2] & HT).
    cbv zeta in *.
    change (inject_Z 40) with 40 in *. change (inject_Z 20) with 20 in *.
    change (inject_Z 90) with 90 in *.
    assert (PatchTSTPredictor.bullish_prob s <= 9 # 11) as Hbp.
    { rewrite Ebp. apply div_le_of_mul; [assumption | lra]. }
    assert (PatchTSTPredictor.bearish_prob s <= 9 # 11) as Hbrp.
    { rewrite Ebrp. apply div_le_of_mul; [assumption | lra]. }
    assert (PatchTSTPredictor.neutral_prob s <= 1 # 3) as Hnp.
    { rewrite Enp. apply div_le_of_mul; [assumption | lra]. }
    rewrite Hp. cbn [Probs.bullish Probs.bearish Probs.neutral].
    split; [|repeat split; lra].
    unfold PatchTSTPredictor.decide.
    repeat match goal with
           | |- context [if ?c then _ else _] => destruct c
           end;
      cbn [Scorer.confidence];
      match goal with
      | |- Py.min2 ?x ?cap <= _ => pose proof (min2_le_left x cap)
      end; lra.
Qed.

Lemma lightgbm_output_bounds (candles : list Candle.t) (ind : Indicators.t) :
  exists o : Scorer.t,
    LightGBMClassifier.predict candles ind = Ok o
    /\ ScorerOutput_ok o
    /\ Probs.total (Scorer.probabilities o) == 1
    /\ Scorer.confidence o <= 75
    /\ Probs.bullish (Scorer.probabilities o) <= 3 # 4
    /\ Probs.bearish (Scorer.probabilities o) <= 3 # 4.
Proof.
  destruct (lightgbm_predict_ok candles ind) as (o & Eo & Hok & Htot).
  exists o. split; [exact Eo|]. split; [exact Hok|]. split; [exact Htot|].
  destruct (Nat.lt_ge_cases (Py.len candles) 5) as [Hlen | Hlen].
  - unfold LightGBMClassifier.predict in Eo.
    apply Nat.ltb_lt in Hlen. rewrite Hlen in Eo. injection Eo as <-.
    simpl. repeat split; lra.
  - destruct (lightgbm_predict_long candles ind Hlen)
      as (f & s & _ & _ & Ep & Hn).
    rewrite Ep in Eo. injection Eo as <-.
    destruct (lightgbm_decide_ok s Hn) as [Hp _].
    assert (0 <= LightGBMClassifier.bullish_signals s
                 + LightGBMClassifier.bearish_signals s)%Z as H0
        by (destruct Hn as (? & ? & _); lia).
    destruct (normalised_shares 3 9 0 _ _ _ _ _ ltac:(lia) H0 Hn)
      as (Ebp & Ebrp & _ & Hb & Hr & [_ HT2] & HT).
    cbv zeta in *.
    change (inject_Z 3) with 3 in *. change (inject_Z 9) with 9 in *.
    assert (LightGBMClassifier.bullish_prob s <= 3 # 4) as Hbp.
    { rewrite Ebp. apply div_le_of_mul; [assumption | lra]. }
    assert (LightGBMClassifier.bearish_prob s <= 3 # 4) as Hbrp.
    { rewrite Ebrp. apply div_le_of_mul; [assumption | lra]. }
    rewrite Hp. cbn [Probs.bullish Probs.bearish Probs.neutral].
    split; [|split; lra].
    unfold LightGBMClassifier.decide.
    repeat match goal with
           | |- context [if ?c then _ else _] => destruct c
           end;
      cbn [Scorer.confidence];
      try match goal with
          | |- Py.min2 ?x ?cap <= _ => pose proof (min2_le_left x cap)
          end; lra.
Qed.

Lemma round1_le (x bound : Q) :
  x <= bound -> Py.round bound 1 == bound -> Py.round x 1 <= bound.
Proof.
  intros H E. pose proof (round_monotone x bound 1 H). lra.
Qed.

Lemma round1_ge (x bound : Q) :
  bound <= x -> Py.round bound 1 == bound -> bound <= Py.round x 1.
Proof.
  intros H E. pose proof (round_monotone bound x 1 H). lra.
Qed.

(** X12.  However the candles and the indicators are, the prediction
    never reports a confidence above 79.1, so that the cap at 95 never
    applies; when the two scorers disagree the confidence lies between 40
    and 57.3. *)
Theorem fused_confidence_ceiling :
  forall (candles : list Candle.t) (indicators : Indicators.t),
  exists p : Prediction.t,
    HybridPredictor.predict candles indicators = Ok p
    /\ Prediction.confidence p <= 79.1
    /\ (Prediction.model_agreement p = false ->
        40 <= Prediction.confidence p <= 57.3).
Proof.
  intros candles indicators.
  destruct (patchtst_output_bounds candles indicators)
    as (a & Ea & Ha & Hta & Hca & Hab & Har & Han).
  destruct (lightgbm_output_bounds candles indicators)
    as (b & Eb & Hb & Htb & Hcb & Hbb & Hbr).
  unfold HybridPredictor.predict. rewrite Ea, Eb. cbn [Py.bind].
  unfold HybridPredictor.fuse.
  destruct (Direction_eqb (Scorer.direction a) (Scorer.direction b)) eqn:Hd.
  - apply Direction_eqb_eq in Hd.
    destruct (combine_agree a b Ha Hb Hd)
      as (c & -> & _ & Hagree & H1 & H2 & H3 & _ & Hc).
    cbn [Py.bind]. eexists. split; [reflexivity|].
    cbn [HybridPredictor.report Prediction.confidence
         Prediction.model_agreement].
    split; [|rewrite Hagree; discriminate].
    cbv beta zeta in H1, H2, H3.
    unfold Probs.get, Probs.pick in H1, H2, H3.
    unfold Probs.total in Hta, Htb.
    destruct Ha as [[Ha0 _] [Hab0 _] [Har0 _] [Han0 _] _].
    destruct Hb as [[Hb0 _] [Hbb0 _] [Hbr0 _] [Hbn0 Hbn1] _].
    set (T := Probs.bullish (Scorer.probabilities a) * 0.6
              + Probs.bullish (Scorer.probabilities b) * 0.4
              + (Probs.bearish (Scorer.probabilities a) * 0.6
                 + Probs.bearish (Scorer.probabilities b) * 0.4)
              + (Probs.neutral (Scorer.probabilities a) * 0.6
                 + Probs.neutral (Scorer.probabilities b) * 0.4)) in *.
    assert (T == 1) as ET by (unfold T; lra).
    assert (Probs.get (HybridPredictor.combined_probs c) (Scorer.direction a)
            <= 87 # 110) as Hp.
    { unfold Probs.get, Probs.pick.
      destruct (Scorer.direction a);
        [rewrite H1 | rewrite H2 | rewrite H3];
        apply div_le_of_mul; lra. }
    apply round1_le; [|reflexivity].
    pose proof (min2_le_left (HybridPredictor.confidence c) 95).
    rewrite Hc in *.
    destruct (max2_cases
                (Scorer.confidence a * 0.6 + Scorer.confidence b * 0.4)
                (Probs.get (HybridPredictor.combined_probs c)
                   (Scorer.direction a) * 100)) as [[E _] | [E _]];
      rewrite E in *; lra.
  - unfold HybridPredictor.combine. rewrite Hd.
    destruct Ha as [[Ha0 _] _ _ _ _], Hb as [[Hb0 _] _ _ _ _].
    repeat match goal with
           | |- context [if ?c then _ else _] => destruct c eqn:?
           end;
      cbn [Py.bind]; (eexists; split; [reflexivity|]);
      cbn [HybridPredictor.report Prediction.confidence
           Prediction.model_agreement HybridPredictor.confidence];
      tests_to_prop;
      match goal with
      | |- context [Py.min2 ?x ?cap] =>
        destruct (min2_cases x cap) as [[-> ?] | [-> ?]]
      end;
      (split; [apply round1_le; [lra | reflexivity] |]);
      intros _;
      (split; [apply round1_ge; [lra | reflexivity]
              | apply round1_le; [lra | reflexivity]]).
Qed.

Lemma fused_confidence_ceiling_witness :
  exists p : Prediction.t,
    HybridPredictor.predict falling_candles Indicators.empty = Ok p
    /\ Prediction.confidence p <= 79.1.
Proof.
  destruct (fused_confidence_ceiling falling_candles Indicators.empty)
    as (p & E & H & _).
  exists p. split; assumption.
Defined.

(** ** The fusion as a function of two outputs *)



(** X14.  Whatever two outputs are fused, the prediction records the two
    directions it was given, [model_agreement] says whether they are
    equal, the direction is A's when they are, and otherwise it is one of
    the two or neutral. *)
Theorem fused_direction_comes_from_the_scorers :
  forall (a b : Scorer.t) (p : Prediction.t),
    HybridPredictor.fuse a b = Ok p ->
    Prediction.transformer_signal p = Scorer.direction a
    /\ Prediction.lgbm_signal p = Scorer.direction b
    /\ (Prediction.model_agreement p = true
        <-> Scorer.direction a = Scorer.direction b)
    /\ (Prediction.model_agreement p = true ->
        Prediction.direction p = Scorer.direction a)
    /\ (Prediction.direction p = Scorer.direction a
        \/ Prediction.direction p = Scorer.direction b
        \/ Prediction.direction p = neutral).
Proof.
  intros a b p H. unfold HybridPredictor.fuse, HybridPredictor.combine in H.
  destruct (Direction_eqb (Scorer.direction a) (Scorer.direction b)) eqn:Hd.
  - destruct (HybridPredictor._weighted_average _ _); [|discriminate].
    cbn [Py.bind] in H. injection H as <-.
    apply Direction_eqb_eq in Hd. simpl. tauto.
  - apply Direction_eqb_neq in Hd.
    repeat match type of H with
           | context [if ?c then _ else _] => destruct c
           end;
      cbn [Py.bind] in H; injection H as <-; simpl;
      (split; [reflexivity|]); (split; [reflexivity|]);
      (split; [split; [discriminate | contradiction]|]);
      (split; [discriminate|]); tauto.
Qed.

Lemma fused_direction_comes_from_the_scorers_witness :
  Prediction.transformer_signal
    (HybridPredictor.report (Scorer.mk bullish 80 (Probs.mk 0.8 0 0.2))
       (Scorer.mk bearish 50 (Probs.mk 0.1 0.5 0.4))
       (HybridPredictor.mkCombined bullish (Probs.mk 0.8 0 0.2) (80 * 0.7)
          false))
  = bullish.
Proof.
  apply (fused_direction_comes_from_the_scorers
           (Scorer.mk bullish 80 (Probs.mk 0.8 0 0.2))
           (Scorer.mk bearish 50 (Probs.mk 0.1 0.5 0.4))).
  reflexivity.
Defined.

(** ** Risk level and warnings *)

Lemma in_singleton_or_nil {A : Type} (c : bool) (x y : A) :
  In y (if c then [x] else []) <-> c = true /\ x = y.
Proof.
  destruct c; simpl.
  - split; [intros [H | []]; auto | intros [_ H]; auto].
  - split; [intros [] | intros [H _]; discriminate].
Qed.

(** X15.  When the two outputs disagree the risk level is never low and
    the warnings always carry the disagreement notice; if both confidences
    are at most 100 the reported confidence lies between 40 and 70. *)
Theorem disagreement_is_never_low_risk :
  forall (a b : Scorer.t) (technical : Indicators.t),
    Scorer.direction a <> Scorer.direction b ->
    Scorer.confidence a <= 100 -> Scorer.confidence b <= 100 ->
    exists p : Prediction.t,
      HybridPredictor.fuse a b = Ok p
      /\ 40 <= Prediction.confidence p <= 70
      /\ PredictionRoute.assess_risk p technical <> "low"%string
      /\ In PredictionRoute.disagreement_notice
           (PredictionRoute.generate_warnings p technical).
Proof.
  intros a b technical Hd Ha Hb. apply Direction_eqb_neq in Hd.
  unfold HybridPredictor.fuse, HybridPredictor.combine. rewrite Hd.
  repeat match goal with
         | |- context [if ?c then _ else _] => destruct c eqn:?
         end;
    cbn [Py.bind]; (eexists; split; [reflexivity|]);
    (split;
     [cbn [HybridPredictor.report Prediction.confidence
           HybridPredictor.confidence];
      tests_to_prop;
      match goal with
      | |- context [Py.min2 ?x ?cap] =>
        destruct (min2_cases x cap) as [[-> ?] | [-> ?]]
      end;
      (split; [apply round1_ge; [lra | reflexivity]
              | apply round1_le; [lra | reflexivity]])
     |]);
    (split;
     [unfold PredictionRoute.assess_risk;
      cbn [HybridPredictor.report Prediction.model_agreement
           HybridPredictor.model_agreement];
      rewrite andb_false_r;
      match goal with
      | |- context [if ?c then _ else _] => destruct c
      end; discriminate
     |]);
    rewrite generate_warnings_in_order;
    cbn [HybridPredictor.report Prediction.model_agreement
         HybridPredictor.model_agreement negb];
    apply in_or_app; right; apply in_or_app; left; now left.
Qed.

Lemma disagreement_is_never_low_risk_witness :
  exists p : Prediction.t,
    HybridPredictor.fuse (Scorer.mk bullish 80 (Probs.mk 0.8 0 0.2))
      (Scorer.mk bearish 50 (Probs.mk 0.1 0.5 0.4)) = Ok p
    /\ 40 <= Prediction.confidence p <= 70
    /\ PredictionRoute.assess_risk p Indicators.empty <> "low"%string
    /\ In PredictionRoute.disagreement_notice
         (PredictionRoute.generate_warnings p Indicators.empty).
Proof.
  apply (disagreement_is_never_low_risk
           (Scorer.mk bullish 80 (Probs.mk 0.8 0 0.2))
           (Scorer.mk bearish 50 (Probs.mk 0.1 0.5 0.4)) Indicators.empty).
  - simpl. discriminate.
  - simpl. lra.
  - simpl. lra.
Defined.

Lemma geb_lt (x y : Q) : Py.geb x y = false <-> x < y.
Proof.
  unfold Py.geb. split; intro H.
  - apply Qnot_le_lt. intro Hle. apply Qle_bool_iff in Hle. congruence.
  - destruct (Qle_bool y x) eqn:E; [|reflexivity].
    apply Qle_bool_iff in E. exfalso. apply (Qlt_not_le _ _ H E).
Qed.

Lemma risk_is_high_iff (p : Prediction.t) (t : Indicators.t) :
  PredictionRoute.assess_risk p t = "high"%string
  <-> Prediction.confidence p < 50.
Proof.
  unfold PredictionRoute.assess_risk.
  destruct (Py.geb (Prediction.confidence p) 70) eqn:E70,
           (Prediction.model_agreement p),
           (Py.geb (Prediction.confidence p) 50) eqn:E50;
    cbn [andb]; try apply geb_ge in E70; try apply geb_ge in E50;
    try apply geb_lt in E70; try apply geb_lt in E50;
    split; intro H; try discriminate H; try reflexivity; lra.
Qed.

Lemma risk_is_low_iff (p : Prediction.t) (t : Indicators.t) :
  PredictionRoute.assess_risk p t = "low"%string
  <-> 70 <= Prediction.confidence p /\ Prediction.model_agreement p = true.
Proof.
  unfold PredictionRoute.assess_risk.
  destruct (Py.geb (Prediction.confidence p) 70) eqn:E70;
    destruct (Prediction.model_agreement p) eqn:Ea; cbn [andb].
  - apply geb_ge in E70. tauto.
  - destruct (Py.geb (Prediction.confidence p) 50);
      (split; [discriminate | intros [_ H]; discriminate H]).
  - apply geb_lt in E70.
    destruct (Py.geb (Prediction.confidence p) 50);
      (split; [discriminate | intros [H _]; lra]).
  - destruct (Py.geb (Prediction.confidence p) 50);
      (split; [discriminate | intros [_ H]; discriminate H]).
Qed.

(** Splits a membership in the warnings into the four places a notice can
    come from, and closes the places whose notice is another one. *)
Ltac notice_cases H :=
  rewrite generate_warnings_in_order in H;
  repeat (apply in_app_or in H; destruct H as [H | H]);
  repeat match type of H with
         | In _ (match ?v with Some _ => _ | None => _ end) =>
           destruct v eqn:?
         end;
  repeat match type of H with
         | In _ (if ?c then _ else _) => destruct c eqn:?
         end;
  simpl in H; repeat (destruct H as [H | H]); try contradiction;
  try discriminate H.

Lemma low_confidence_notice_iff (p : Prediction.t) (t : Indicators.t) :
  In PredictionRoute.low_confidence_notice
    (PredictionRoute.generate_warnings p t)
  <-> Prediction.confidence p < 50.
Proof.
  split.
  - intro H. notice_cases H. now apply ltb_lt.
  - intro H. rewrite generate_warnings_in_order.
    apply ltb_lt in H. rewrite H. now left.
Qed.

Lemma disagreement_notice_iff (p : Prediction.t) (t : Indicators.t) :
  In PredictionRoute.disagreement_notice
    (PredictionRoute.generate_warnings p t)
  <-> Prediction.model_agreement p = false.
Proof.
  split.
  - intro H. notice_cases H. now apply negb_true_iff.
  - intro H. rewrite generate_warnings_in_order. rewrite H.
    apply in_or_app; right. now left.
Qed.

(** X16.  The risk level and the warnings never contradict each other:
    the level is high exactly when the low-confidence notice is issued,
    and a low level comes with neither that notice nor the disagreement
    notice. *)
Theorem risk_level_agrees_with_warnings :
  forall (p : Prediction.t) (t : Indicators.t),
    (PredictionRoute.assess_risk p t = "high"%string
     <-> In PredictionRoute.low_confidence_notice
           (PredictionRoute.generate_warnings p t))
    /\ (PredictionRoute.assess_risk p t = "low"%string ->
        ~ In PredictionRoute.low_confidence_notice
            (PredictionRoute.generate_warnings p t)
        /\ ~ In PredictionRoute.disagreement_notice
               (PredictionRoute.generate_warnings p t)).
Proof.
  intros p t. split.
  - rewrite risk_is_high_iff, low_confidence_notice_iff. reflexivity.
  - rewrite risk_is_low_iff, low_confidence_notice_iff,
      disagreement_notice_iff.
    intros [H70 Hagree]. split; [lra | congruence].
Qed.

Lemma risk_level_agrees_with_warnings_witness :
  ~ In PredictionRoute.low_confidence_notice
      (PredictionRoute.generate_warnings
         (Prediction.mk bullish 75 (Probs.mk 70 10 20) true bullish bullish)
         Indicators.empty)
  /\ ~ In PredictionRoute.disagreement_notice
         (PredictionRoute.generate_warnings
            (Prediction.mk bullish 75 (Probs.mk 70 10 20) true bullish
               bullish)
            Indicators.empty).
Proof.
  apply (risk_level_agrees_with_warnings
           (Prediction.mk bullish 75 (Probs.mk 70 10 20) true bullish bullish)
           Indicators.empty).
  reflexivity.
Defined.

(** X17.  The RSI notices as the code issues them: the overbought notice
    exactly when an RSI above 70 is present, the oversold notice exactly
    when an RSI below 30 and different from zero is present. *)
Theorem rsi_notice_conditions :
  forall (p : Prediction.t) (t : Indicators.t),
    (In (PredictionRoute.rsi_notice "overbought")
        (PredictionRoute.generate_warnings p t)
     <-> exists rsi, Indicators.rsi t = Some rsi /\ 70 < rsi)
    /\ (In (PredictionRoute.rsi_notice "oversold")
           (PredictionRoute.generate_warnings p t)
        <-> exists rsi,
              Indicators.rsi t = Some rsi /\ rsi < 30 /\ ~ rsi == 0).
Proof.
  intros p t. split; split.
  - intro H. notice_cases H.
    destruct (Py.gtb q 70) eqn:E70; [|discriminate H].
    apply gtb_gt in E70. eexists. split; [reflexivity | exact E70].
  - intros (rsi & E & H). rewrite generate_warnings_in_order, E.
    assert (Py.truthy rsi = true) as -> by (apply truthy_true; lra).
    apply gtb_gt in H. rewrite H. cbn [andb orb].
    apply in_or_app; right; apply in_or_app; right.
    apply in_or_app; left. now left.
  - intro H. notice_cases H.
    destruct (Py.gtb q 70) eqn:E70; [discriminate H|].
    rewrite orb_false_l in *. tests_to_prop.
    eexists. split; [reflexivity|]. split; assumption.
  - intros (rsi & E & H & Hz). rewrite generate_warnings_in_order, E.
    apply truthy_true in Hz. rewrite Hz.
    assert (Py.gtb rsi 70 = false) as -> by (apply gtb_le; lra).
    apply ltb_lt in H. rewrite H. cbn [andb orb].
    apply in_or_app; right; apply in_or_app; right.
    apply in_or_app; left. now left.
Qed.

Lemma rsi_notice_conditions_witness :
  In (PredictionRoute.rsi_notice "oversold")
    (PredictionRoute.generate_warnings
       (Prediction.mk bullish 75 (Probs.mk 70 10 20) true bullish bullish)
       (Indicators.mk (Some 25) None None None None)).
Proof.
  apply (rsi_notice_conditions
           (Prediction.mk bullish 75 (Probs.mk 70 10 20) true bullish bullish)
           (Indicators.mk (Some 25) None None None None)).
  exists 25. split; [reflexivity|]. split; [reflexivity|]. discriminate.
Defined.

(** X18.  There are never more than four warnings and none is issued
    twice. *)
Theorem warnings_are_few_and_distinct :
  forall (p : Prediction.t) (t : Indicators.t),
    (Py.len (PredictionRoute.generate_warnings p t) <= 4)%nat
    /\ NoDup (PredictionRoute.generate_warnings p t).
Proof.
  intros p t. rewrite generate_warnings_in_order.
  destruct (Py.ltb (Prediction.confidence p) 50),
    (negb (Prediction.model_agreement p)),
    (Indicators.rsi t) as [rsi|], (Indicators.volume t) as [vol|];
    repeat match goal with
           | |- context [if ?c then _ else _] => destruct c
           end;
    (split; [unfold Py.len; simpl; lia|]);
    simpl; repeat constructor; simpl; intuition discriminate.
Qed.

(** ** Short input, end to end *)

(** X19.  Fewer than five candles.  The route refuses them: its guard
    raises [HTTPException] with status 400 inside the [try], and the
    handler [except Exception] of the same [try] catches it and raises
    [HTTPException] with status 500, so that is what the route raises,
    whatever the symbol and the text generator are.
    The functions behind the guard do answer when called on such a list,
    and with one answer whatever the candles are: neutral, confidence
    34.0, percentages 33.0, 33.0 and 34.0, agreement of the two scorers,
    a high risk level and the low-confidence notice as only warning. *)
Theorem short_input_is_refused_with_status_500 :
  forall candles : list Candle.t,
    (Py.len candles < 5)%nat ->
    (forall generate symbol,
        PredictionRoute.predict_next_candle generate symbol candles
        = Raise (Py.HTTPException 500))
    /\ exists (ind : Indicators.t) (p : Prediction.t),
         IndicatorCalculator.calculate_all candles = Ok ind
         /\ HybridPredictor.predict candles ind = Ok p
         /\ Prediction.direction p = neutral
         /\ Prediction.confidence p == 34
         /\ Probs.bullish (Prediction.probabilities p) == 33
         /\ Probs.bearish (Prediction.probabilities p) == 33
         /\ Probs.neutral (Prediction.probabilities p) == 34
         /\ Prediction.model_agreement p = true
         /\ PredictionRoute.assess_risk p ind = "high"%string
         /\ PredictionRoute.generate_warnings p ind
            = [PredictionRoute.low_confidence_notice].
Proof.
  intros candles H.
  destruct candles as [|c1 [|c2 [|c3 [|c4 [|c5 rest]]]]];
    try (unfold Py.len in H; simpl in H; lia);
    (split; [intros generate symbol; reflexivity|]);
    (eexists; eexists; split; [reflexivity|]);
    (split; [reflexivity|]); repeat split; reflexivity.
Qed.

Lemma short_input_is_refused_with_status_500_witness :
  (forall generate symbol,
      PredictionRoute.predict_next_candle generate symbol
        [Candle.mk 1 10 12 9 11 100; Candle.mk 2 11 13 10 12.5 80]
      = Raise (Py.HTTPException 500))
  /\ exists (ind : Indicators.t) (p : Prediction.t),
       IndicatorCalculator.calculate_all
         [Candle.mk 1 10 12 9 11 100; Candle.mk 2 11 13 10 12.5 80] = Ok ind
       /\ HybridPredictor.predict
            [Candle.mk 1 10 12 9 11 100; Candle.mk 2 11 13 10 12.5 80] ind
          = Ok p
       /\ Prediction.direction p = neutral
       /\ PredictionRoute.assess_risk p ind = "high"%string.
Proof.
  destruct (short_input_is_refused_with_status_500
              [Candle.mk 1 10 12 9 11 100; Candle.mk 2 11 13 10 12.5 80])
    as (E & ind & p & Ei & Ep & Hd & _ & _ & _ & _ & _ & Hr & _).
  - unfold Py.len. simpl. lia.
  - split; [exact E|]. exists ind, p. repeat split; assumption.
Defined.

(** ** Scorer B without a 20-period EMA *)

Lemma ema_trend_without_ema_20 (candles : list Candle.t)
  (ind : Indicators.t) (f : Features.t) :
  LightGBMClassifier._extract_features candles ind = Ok f ->
  Py.truthy
    match Indicators.ema ind with
    | Some (_ :: _ as ema) => Py.dict_get ema 20 0
    | _ => 0
    end = false ->
  Features.ema_trend f = 0.
Proof.
  intros H Hfalse. unfold LightGBMClassifier._extract_features in H.
  rewrite Hfalse in H.
  repeat match type of H with
         | Py.bind ?m _ = Ok _ =>
           destruct m; [cbn [Py.bind] in H | discriminate H]
         end.
  injection H as <-. reflexivity.
Qed.

(** X20.  With five to nineteen candles the indicator set has no EMA for
    the period 20, and scorer B's trend feature is then 0: its trend rule
    can only take the last branch, the bearish one. *)
Theorem ema_trend_is_zero_below_20_candles :
  forall (candles : list Candle.t) (ind : Indicators.t) (f : Features.t),
    (5 <= Py.len candles < 20)%nat ->
    IndicatorCalculator.calculate_all candles = Ok ind ->
    LightGBMClassifier._extract_features candles ind = Ok f ->
    Features.ema_trend f = 0.
Proof.
  intros candles ind f [H5 H20] Hall Hf.
  apply (ema_trend_without_ema_20 candles ind f Hf).
  destruct candles as [|c candles]; [unfold Py.len in H5; simpl in H5; lia|].
  unfold IndicatorCalculator.calculate_all in Hall.
  set (closes := map Candle.close (c :: candles)) in *.
  assert (Py.len closes < 20)%nat as Hlen
      by (unfold closes, Py.len in *; rewrite length_map; lia).
  destruct (IndicatorCalculator.calculate_rsi closes 14); [|discriminate].
  destruct (IndicatorCalculator.calculate_macd closes 12 26 9);
    [|discriminate].
  cbn [Py.bind] in Hall.
  unfold IndicatorCalculator.calculate_emas in Hall.
  cbn [fold_left Py.bind] in Hall.
  assert ((20 <=? Py.len closes)%nat = false) as E20
      by (apply Nat.leb_gt; lia).
  assert ((50 <=? Py.len closes)%nat = false) as E50
      by (apply Nat.leb_gt; lia).
  assert ((200 <=? Py.len closes)%nat = false) as E200
      by (apply Nat.leb_gt; lia).
  rewrite E20, E50, E200 in Hall.
  destruct (9 <=? Py.len closes)%nat;
    [destruct (IndicatorCalculator._ema closes 9); [|discriminate]|];
    cbn [Py.bind app] in Hall;
    (destruct (IndicatorCalculator.calculate_smas closes); [|discriminate]);
    (destruct (IndicatorCalculator.analyze_volume _); [|discriminate]);
    cbn [Py.bind] in Hall; injection Hall as <-; reflexivity.
Qed.

Lemma ema_trend_is_zero_below_20_candles_witness :
  exists (ind : Indicators.t) (f : Features.t),
    IndicatorCalculator.calculate_all falling_candles = Ok ind
    /\ LightGBMClassifier._extract_features falling_candles ind = Ok f
    /\ Features.ema_trend f = 0.
Proof.
  destruct (calculate_all_returns falling_candles) as (ind & Hall & _).
  destruct (_extract_features_returns falling_candles ind) as [f Hf].
  - unfold Py.len. simpl. lia.
  - exists ind, f. split; [exact Hall|]. split; [exact Hf|].
    apply (ema_trend_is_zero_below_20_candles falling_candles ind f);
      try assumption.
    unfold Py.len. simpl. lia.
Defined.

(** X23.  Scorer B reads an RSI of exactly zero as a missing one: in both
    cases its RSI feature is the default 0.5, not the oversold reading. *)
Theorem lightgbm_reads_rsi_zero_as_missing :
  forall (candles : list Candle.t) (ind : Indicators.t) (f : Features.t),
    LightGBMClassifier._extract_features candles ind = Ok f ->
    (Indicators.rsi ind = None
     \/ exists r, Indicators.rsi ind = Some r /\ r == 0) ->
    Features.rsi f = 0.5.
Proof.
  intros candles ind f H Hrsi.
  unfold LightGBMClassifier._extract_features in H.
  assert (match Indicators.rsi ind with
          | Some r => if Py.truthy r then Py.div r 100 else Ok 0.5
          | None => Ok 0.5
          end = Ok 0.5) as E.
  { destruct Hrsi as [-> | (r & -> & Hz)]; [reflexivity|].
    apply truthy_false in Hz. now rewrite Hz. }
  rewrite E in H.
  repeat match type of H with
         | Py.bind ?m _ = Ok _ =>
           destruct m; [cbn [Py.bind] in H | discriminate H]
         end.
  injection H as <-. reflexivity.
Qed.

Lemma lightgbm_reads_rsi_zero_as_missing_witness :
  exists f : Features.t,
    LightGBMClassifier._extract_features falling_candles
      (Indicators.mk (Some 0) None None None None) = Ok f
    /\ Features.rsi f = 0.5.
Proof.
  destruct (_extract_features_returns falling_candles
              (Indicators.mk (Some 0) None None None None)) as [f Hf].
  - unfold Py.len. simpl. lia.
  - exists f. split; [exact Hf|].
    apply (lightgbm_reads_rsi_zero_as_missing falling_candles
             (Indicators.mk (Some 0) None None None None) f Hf).
    right. exists 0. split; reflexivity.
Defined.

(** ** News sentiment *)

Lemma hits_nonneg (words : list string) (h : string) :
  (0 <= NewsFetcher.hits words h)%Z.
Proof. unfold NewsFetcher.hits. lia. Qed.

Lemma total_hits_nonneg (words headlines : list string) :
  (0 <= total_hits words headlines)%Z.
Proof.
  induction headlines as [|h hs IH]; simpl; [lia|].
  pose proof (hits_nonneg words (PyStr.lower h)). lia.
Qed.

Lemma total_hits_zero (words headlines : list string) :
  Forall (fun h => NewsFetcher.hits words (PyStr.lower h) = 0%Z) headlines ->
  total_hits words headlines = 0%Z.
Proof.
  induction 1 as [|h hs Hh _ IH]; simpl; [reflexivity|]. lia.
Qed.

Lemma total_hits_pos (words headlines : list string) :
  Exists (fun h => (0 < NewsFetcher.hits words (PyStr.lower h))%Z) headlines ->
  (0 < total_hits words headlines)%Z.
Proof.
  induction 1 as [h hs Hh | h hs _ IH]; simpl.
  - pose proof (total_hits_nonneg words hs). lia.
  - pose proof (hits_nonneg words (PyStr.lower h)). lia.
Qed.

(** The loop adds up the hits of every headline. *)
Lemma count_words_is_total_hits (headlines : list string) :
  NewsFetcher.count_words headlines
  = (total_hits NewsFetcher.positive_words headlines,
     total_hits NewsFetcher.negative_words headlines).
Proof.
  unfold NewsFetcher.count_words.
  assert (forall hs p0 n0,
             fold_left
               (fun '(positive_count, negative_count) headline =>
                  let lower_headline := PyStr.lower headline in
                  ((positive_count
                    + NewsFetcher.hits NewsFetcher.positive_words
                        lower_headline)%Z,
                   (negative_count
                    + NewsFetcher.hits NewsFetcher.negative_words
                        lower_headline)%Z))
               hs (p0, n0)
             = ((p0 + total_hits NewsFetcher.positive_words hs)%Z,
                (n0 + total_hits NewsFetcher.negative_words hs)%Z)) as H.
  { induction hs as [|h hs IH]; intros p0 n0.
    - simpl. f_equal; lia.
    - cbn [fold_left total_hits fold_right]. rewrite IH.
      fold (total_hits NewsFetcher.positive_words hs).
      fold (total_hits NewsFetcher.negative_words hs).
      f_equal; lia. }
  rewrite H. reflexivity.
Qed.

Lemma _calculate_sentiment_cases (headlines : list string) :
  let P := total_hits NewsFetcher.positive_words headlines in
  let N := total_hits NewsFetcher.negative_words headlines in
  NewsFetcher._calculate_sentiment headlines
  = if (P + N =? 0)%Z then Ok 0.0
    else Ok (Py.round (inject_Z (P - N) / inject_Z (P + N)) 2).
Proof.
  intros P N. unfold NewsFetcher._calculate_sentiment.
  destruct headlines as [|h hs]; [reflexivity|].
  rewrite count_words_is_total_hits. fold P N.
  destruct (P + N =? 0)%Z eqn:E; [reflexivity|].
  apply Z.eqb_neq in E.
  pose proof (total_hits_nonneg NewsFetcher.positive_words (h :: hs)).
  pose proof (total_hits_nonneg NewsFetcher.negative_words (h :: hs)).
  rewrite div_ok by (apply inject_Z_pos_nonzero; unfold P, N in *; lia).
  reflexivity.
Qed.

(** X21.  The sentiment of any list of headlines is a score between -1
    and 1 with two decimals; the division by the number of hits is never
    reached with zero hits. *)
Theorem sentiment_score_range :
  forall headlines : list string,
  exists score : Q,
    NewsFetcher._calculate_sentiment headlines = Ok score
    /\ - (1) <= score <= 1
    /\ has_decimals 2 score.
Proof.
  intro headlines. rewrite _calculate_sentiment_cases. cbv zeta.
  set (P := total_hits NewsFetcher.positive_words headlines).
  set (N := total_hits NewsFetcher.negative_words headlines).
  pose proof (total_hits_nonneg NewsFetcher.positive_words headlines) as HP.
  pose proof (total_hits_nonneg NewsFetcher.negative_words headlines) as HN.
  fold P in HP. fold N in HN.
  destruct (P + N =? 0)%Z eqn:E.
  - exists 0.0. split; [reflexivity|]. split; [split; lra|].
    exists 0%Z. reflexivity.
  - apply Z.eqb_neq in E. eexists. split; [reflexivity|].
    split; [|apply round_has_decimals].
    assert (0 < inject_Z (P + N)) as HT.
    { change 0 with (inject_Z 0). rewrite <- Zlt_Qlt. lia. }
    rewrite Zle_Qle in HP, HN. change (inject_Z 0) with 0 in HP, HN.
    pose proof (round_between (-100) 100
                  (inject_Z (P - N) / inject_Z (P + N)) 2) as Hr.
    cbv zeta in Hr.
    assert (inject_Z (-100) / inject_Z (10 ^ Z.of_nat 2) == - (1)) as E0
        by reflexivity.
    assert (inject_Z 100 / inject_Z (10 ^ Z.of_nat 2) == 1) as E1
        by reflexivity.
    rewrite E0, E1 in Hr. apply Hr.
    unfold Zminus. rewrite !inject_Z_plus, inject_Z_opp in *. split.
    + apply Qle_shift_div_l; lra.
    + apply Qle_shift_div_r; lra.
Qed.

(** X22.  For headlines written in ASCII: headlines without any keyword
    score [0.0]; headlines with positive keywords only score 1, headlines
    with negative keywords only score -1. *)
Theorem one_sided_headlines_score_extremes :
  forall headlines : list string,
    Forall (fun h => PyStr.isascii h = true) headlines ->
    let positive h :=
      NewsFetcher.hits NewsFetcher.positive_words (PyStr.lower h) in
    let negative h :=
      NewsFetcher.hits NewsFetcher.negative_words (PyStr.lower h) in
    (Forall (fun h => positive h = 0%Z) headlines ->
     Forall (fun h => negative h = 0%Z) headlines ->
     NewsFetcher._calculate_sentiment headlines = Ok 0.0)
    /\ (Forall (fun h => negative h = 0%Z) headlines ->
        Exists (fun h => (0 < positive h)%Z) headlines ->
        exists score,
          NewsFetcher._calculate_sentiment headlines = Ok score
          /\ score == 1)
    /\ (Forall (fun h => positive h = 0%Z) headlines ->
        Exists (fun h => (0 < negative h)%Z) headlines ->
        exists score,
          NewsFetcher._calculate_sentiment headlines = Ok score
          /\ score == - (1)).
Proof.
  intros headlines _ positive negative.
  rewrite _calculate_sentiment_cases. cbv zeta.
  set (P := total_hits NewsFetcher.positive_words headlines).
  set (N := total_hits NewsFetcher.negative_words headlines).
  split; [|split].
  - intros HP HN. apply total_hits_zero in HP, HN. fold P in HP.
    fold N in HN. rewrite HP, HN. reflexivity.
  - intros HN HP. apply total_hits_zero in HN. apply total_hits_pos in HP.
    fold P in HP. fold N in HN. rewrite HN.
    assert ((P + 0 =? 0)%Z = false) as -> by (apply Z.eqb_neq; lia).
    eexists. split; [reflexivity|].
    assert (0 < inject_Z P) as HQ
        by (change 0 with (inject_Z 0); now rewrite <- Zlt_Qlt).
    rewrite (round_comp _ 1 2); [reflexivity|].
    rewrite Z.sub_0_r, Z.add_0_r. field. lra.
  - intros HP HN. apply total_hits_zero in HP. apply total_hits_pos in HN.
    fold P in HP. fold N in HN. rewrite HP.
    assert ((0 + N =? 0)%Z = false) as -> by (apply Z.eqb_neq; lia).
    eexists. split; [reflexivity|].
    assert (0 < inject_Z N) as HQ
        by (change 0 with (inject_Z 0); now rewrite <- Zlt_Qlt).
    rewrite (round_comp _ (- (1)) 2); [reflexivity|].
    rewrite Z.sub_0_l, Z.add_0_l, inject_Z_opp. field. lra.
Qed.

Lemma one_sided_headlines_score_extremes_witness :
  exists score,
    NewsFetcher._calculate_sentiment
      ["Shares RALLY after upgrade"%string; "Quiet session"%string]
    = Ok score
    /\ score == 1.
Proof.
  apply (one_sided_headlines_score_extremes
           ["Shares RALLY after upgrade"%string; "Quiet session"%string]).
  - repeat constructor.
  - repeat constructor.
  - apply Exists_cons_hd. reflexivity.
Defined.
